(** * Batch document-processing pipeline: the nodes of [batch-process-docs]

    A shallow embedding of the Python nodes under
    [src/batch-process-docs/nodes/] and the properties the design
    document states about them.

    Conventions.
    - A Python [str] is a [string]; every character stands for one code
      point (the development covers the code points below 256).
    - A value produced by [json.loads] is a [JSON] tree.  A Python [dict]
      keeps its insertion order, so an object is an association list; the
      first binding of a key is the one [dict.get] sees.
    - A Python exception is a constructor of [exn]; a computation that may
      raise returns a [result].
    - [json.loads], [json.dumps], the clock, the file readers and the
      Gemini client are not part of the repository: they are the
      parameters of the sections that use them. *)

From Stdlib Require Import ZArith Lia SpecFloat Ascii.
From stdpp Require Import base option list strings pretty gmap.

Set Warnings "-register-all".
Open Scope Z_scope.

(** ** Python values and builtins *)

Module Py.

(** The exceptions the nodes raise or let through.  [ReQueueAfterSignal]
    is the runtime's signal carrying the delay in seconds; [External] is
    an error raised inside a library or service call, with its message. *)
Inductive exn : Type :=
  | JSONDecodeError
  | ValueError
  | TypeError
  | AttributeError
  | KeyError
  | IndexError
  | External (msg : string)
  | ReQueueAfterSignal (seconds : Z).

Inductive result (A : Type) : Type :=
  | Ok (a : A)
  | Raise (e : exn).
Arguments Ok {A} a.
Arguments Raise {A} e.

#[global] Instance result_ret : MRet result := fun A a => Ok a.
#[global] Instance result_bind : MBind result := fun A B f r =>
  match r with
  | Ok a => f a
  | Raise e => Raise e
  end.

(** JSON trees.  An integer literal loads as a Python [int], a literal
    with a fraction or an exponent as a binary64 [float]. *)
Inductive JSON : Type :=
  | JNull
  | JBool (b : bool)
  | JInt (n : Z)
  | JFloat (f : spec_float)
  | JStr (s : string)
  | JArr (l : list JSON)
  | JObj (d : list (string * JSON)).

(** Python truthiness ([bool(v)]). *)
Definition float_truthy (f : spec_float) : bool :=
  match f with
  | S754_zero _ => false
  | _ => true
  end.

Definition string_truthy (s : string) : bool :=
  match s with
  | EmptyString => false
  | String _ _ => true
  end.

Definition truthy (v : JSON) : bool :=
  match v with
  | JNull => false
  | JBool b => b
  | JInt n => negb (n =? 0)
  | JFloat f => float_truthy f
  | JStr s => string_truthy s
  | JArr l => match l with [] => false | _ => true end
  | JObj d => match d with [] => false | _ => true end
  end.

(** [d.get(k)] on the bindings of a dict.  The keys of a dict are
    distinct; in a list that repeats a key the first binding counts. *)
Fixpoint dict_get (d : list (string * JSON)) (k : string) : option JSON :=
  match d with
  | [] => None
  | (k', v) :: d' => if String.eqb k' k then Some v else dict_get d' k
  end.

(** [v.get(k, default)]: only a dict has the method. *)
Definition get (v : JSON) (k : string) (dflt : JSON) : result JSON :=
  match v with
  | JObj d => Ok (default dflt (dict_get d k))
  | _ => Raise AttributeError
  end.

(** [for x in xs: ys.append(f(x))] where [f] may raise: the first
    exception ends the loop. *)
Fixpoint traverse {A B : Type} (f : A -> result B) (xs : list A)
  : result (list B) :=
  match xs with
  | [] => Ok []
  | x :: xs' => y ← f x; ys ← traverse f xs'; Ok (y :: ys)
  end.

(** The white space of [str.strip()] among the code points below 256:
    TAB..CR, FS..US, SPACE, NEL and NBSP. *)
Definition is_space (c : ascii) : bool :=
  let n := Ascii.N_of_ascii c in
  ((9 <=? n) && (n <=? 13) || (28 <=? n) && (n <=? 32)
   || (n =? 133) || (n =? 160))%N.

Fixpoint lstrip (s : string) : string :=
  match s with
  | EmptyString => EmptyString
  | String c s' => if is_space c then lstrip s' else s
  end.

Definition rstrip (s : string) : string :=
  String.rev (lstrip (String.rev s)).

Definition strip (s : string) : string := rstrip (lstrip s).

(** [len(s)] *)
Definition len (s : string) : Z := Z.of_nat (String.length s).

(** [s.split(sep)] for a one-character separator. *)
Fixpoint split (sep : ascii) (s : string) : list string :=
  match s with
  | EmptyString => [EmptyString]
  | String c s' =>
      if Ascii.eqb c sep then EmptyString :: split sep s'
      else match split sep s' with
           | [] => [String c EmptyString]
           | w :: ws => String c w :: ws
           end
  end.

(** [c in s] for a one-character [c], and [s.endswith(suffix)]. *)
Fixpoint contains_char (c : ascii) (s : string) : bool :=
  match s with
  | EmptyString => false
  | String c' s' => Ascii.eqb c' c || contains_char c s'
  end.

Definition endswith (s suffix : string) : bool :=
  String.prefix (String.rev suffix) (String.rev s).

(** [json.loads(s)], given its graph: [None] is [JSONDecodeError]. *)
Definition loads (json_loads : string -> option JSON) (s : string)
  : result JSON :=
  match json_loads s with
  | Some v => Ok v
  | None => Raise JSONDecodeError
  end.

(** [len(v)] *)
Definition py_len (v : JSON) : result Z :=
  match v with
  | JStr s => Ok (len s)
  | JArr l => Ok (Z.of_nat (length l))
  | JObj d => Ok (Z.of_nat (length d))
  | _ => Raise TypeError
  end.

(** The elements [for x in v] visits: the items of a list, the
    characters of a string, the keys of a dict. *)
Fixpoint chars (s : string) : list JSON :=
  match s with
  | EmptyString => []
  | String c s' => JStr (String c EmptyString) :: chars s'
  end.

Definition iterate (v : JSON) : result (list JSON) :=
  match v with
  | JArr l => Ok l
  | JStr s => Ok (chars s)
  | JObj d => Ok (map (fun kv => JStr (fst kv)) d)
  | _ => Raise TypeError
  end.

(** [v.strip()]: only a string has the method. *)
Definition str_strip (v : JSON) : result string :=
  match v with
  | JStr s => Ok (strip s)
  | _ => Raise AttributeError
  end.

(** [int(s)] for a string: optional white space around an optional sign
    and decimal digits, where single underscores may separate digits. *)
Definition digit (c : ascii) : option Z :=
  let n := Ascii.N_of_ascii c in
  if ((48 <=? n) && (n <=? 57))%N then Some (Z.of_N n - 48) else None.

Fixpoint digits (acc : Z) (after_digit : bool) (s : string) : option Z :=
  match s with
  | EmptyString => if after_digit then Some acc else None
  | String c s' =>
      match digit c with
      | Some d => digits (10 * acc + d) true s'
      | None =>
          if Ascii.eqb c "_" && after_digit then digits acc false s'
          else None
      end
  end.

Definition int (s : string) : result Z :=
  let t := strip s in
  let r := match t with
           | String "+" t' => digits 0 false t'
           | String "-" t' => Z.opp <$> digits 0 false t'
           | _ => digits 0 false t
           end in
  match r with
  | Some n => Ok n
  | None => Raise ValueError
  end.

(** [range(start, stop, step)]: the length is computed first, as CPython
    does, and a zero step is a [ValueError]. *)
Definition range_len (start stop step : Z) : Z :=
  if 0 <? step then
    if start <? stop then (stop - start - 1) / step + 1 else 0
  else
    if stop <? start then (start - stop - 1) / (- step) + 1 else 0.

Definition range (start stop step : Z) : result (list Z) :=
  if step =? 0 then Raise ValueError
  else Ok (map (fun j => start + Z.of_nat j * step)
               (seq 0 (Z.to_nat (range_len start stop step)))).

(** [l[i:j]]: a negative bound counts from the end, and both bounds are
    clamped to the list. *)
Definition slice_bound (n i : Z) : Z :=
  if i <? 0 then Z.max 0 (i + n) else Z.min i n.

Definition slice {A : Type} (l : list A) (i j : Z) : list A :=
  let n := Z.of_nat (length l) in
  let lo := slice_bound n i in
  let hi := slice_bound n j in
  take (Z.to_nat (hi - lo)) (drop (Z.to_nat lo) l).

(** [v[i:j]]: lists and strings can be sliced; a dict raises (a
    [TypeError] before Python 3.12). *)
Definition getslice (v : JSON) (i j : Z) : result JSON :=
  match v with
  | JArr l => Ok (JArr (slice l i j))
  | JStr s =>
      Ok (JStr (String.string_of_list_ascii
              (slice (String.list_ascii_of_string s) i j)))
  | _ => Raise TypeError
  end.

End Py.

(** ** [nodes/polling.py]: the poll controller *)

Module Polling.
Import Py.

(** What the node reads of the objects the Gemini client returns.  An
    attribute the code tests with [hasattr] is an [option]: [None] when
    the object does not have it. *)
Record Usage : Type := {
  prompt_token_count : JSON;
  candidates_token_count : JSON;
  total_token_count : JSON;
  cached_content_token_count : option JSON
}.

(** [parts_text c] lists [p.text] for [p] in [c.content.parts]. *)
Record Candidate : Type := { parts_text : list JSON }.

Record Response : Type := {
  response_id : JSON;
  model_version : JSON;
  candidates : list Candidate;
  usage_metadata : Usage
}.

(** [inlined_responses] lists [r.response] for the inlined responses. *)
Record Dest : Type := {
  inlined_responses : option (list Response);
  file_name : option string
}.

Record BatchJob : Type := {
  state_name : string;
  dest : option Dest
}.

Record Outputs : Type := {
  task_result : string;
  batch_info : string
}.

(** Map Gemini batch statuses to the internal statuses. *)
Definition status_mapping : list (string * string) :=
  [ ("JOB_STATE_PENDING", "pending");
    ("JOB_STATE_RUNNING", "processing");
    ("JOB_STATE_SUCCEEDED", "completed");
    ("JOB_STATE_FAILED", "failed");
    ("JOB_STATE_CANCELLING", "processing");
    ("JOB_STATE_CANCELLED", "failed") ].

(** [mapping.get(k, dflt)] *)
Fixpoint mapping_get (m : list (string * string)) (k dflt : string)
  : string :=
  match m with
  | [] => dflt
  | (k', v) :: m' => if String.eqb k' k then v else mapping_get m' k dflt
  end.

Section Node.

(** [json.loads] ([None]: [JSONDecodeError]) and [json.dumps]. *)
Variable json_loads : string -> option JSON.
Variable json_dumps : JSON -> string.
(** [client.batches.get(name=...)] and
    [client.files.download(name=...).decode('utf-8')]. *)
Variable batches_get : string -> result BatchJob.
Variable files_download : string -> result string.

Let loads := Py.loads json_loads.

(** Any exception of the status query is caught and reported as
    [("failed", None)]. *)
Definition _check_task_status (task_id : string)
  : string * option BatchJob :=
  match batches_get task_id with
  | Ok batch_job =>
      (mapping_get status_mapping (state_name batch_job) "pending",
       Some batch_job)
  | Raise _ => ("failed", None)
  end.

(** The body of the loop over the inlined responses. *)
Definition inlined_result (r : Response) : result JSON :=
  content ←
    match candidates r with
    | [] => Ok (JStr "No content")
    | c :: _ =>
        match parts_text c with
        | [] => Raise IndexError
        | t :: _ => Ok t
        end
    end;
  let usage := usage_metadata r in
  Ok (JObj
    [ ("response_id", response_id r);
      ("model_version", model_version r);
      ("content", content);
      ("usage_metadata", JObj
         [ ("prompt_token_count", prompt_token_count usage);
           ("candidates_token_count", candidates_token_count usage);
           ("total_token_count", total_token_count usage);
           ("cached_content_token_count",
            default (JInt 0) (cached_content_token_count usage)) ]) ]).

(** The loop over the lines of the result file. *)
Fixpoint parse_lines (lines : list string) : result (list JSON) :=
  match lines with
  | [] => Ok []
  | line :: rest =>
      if string_truthy (strip line) then
        r ← loads line; rs ← parse_lines rest; Ok (r :: rs)
      else parse_lines rest
  end.

Definition completed (task_id : string) (results : list JSON) : JSON :=
  JObj [ ("task_id", JStr task_id);
         ("status", JStr "completed");
         ("results", JArr results) ].

Definition _get_task_results (task_id : string) (batch_job : BatchJob)
  : result JSON :=
  if negb (String.eqb (state_name batch_job) "JOB_STATE_SUCCEEDED") then
    Ok (JObj [ ("task_id", JStr task_id);
               ("status", JStr (state_name batch_job));
               ("results", JArr []) ])
  else
    match dest batch_job with
    | Some {| inlined_responses := Some rs |} =>
        results ← traverse inlined_result rs;
        Ok (completed task_id results)
    | Some {| inlined_responses := None; file_name := Some name |} =>
        if string_truthy name then
          results_data ← files_download name;
          results ← parse_lines (split "010" (strip results_data));
          Ok (completed task_id results)
        else
          Ok (JObj
            [ ("task_id", JStr task_id);
              ("status", JStr "failed");
              ("error",
               JStr "No output file or inlined responses available");
              ("results", JArr []) ])
    | _ =>
        Ok (JObj
          [ ("task_id", JStr task_id);
            ("status", JStr "failed");
            ("error",
             JStr "No output file or inlined responses available");
            ("results", JArr []) ])
    end.

(** [execute]: the two [except] clauses re-raise what they catch, so an
    exception of the body is the exception of the node. *)
Definition execute (task_id batch_info : string) : result Outputs :=
  info ← loads batch_info;
  _ ← get info "file_count" (JInt 0);
  let '(task_status, batch_job) := _check_task_status task_id in
  if String.eqb task_status "completed" then
    match batch_job with
    | Some job =>
        r ← _get_task_results task_id job;
        Ok {| task_result := json_dumps r; batch_info := batch_info |}
    | None => Raise AttributeError
    end
  else if String.eqb task_status "failed" then
    Ok {| task_result := json_dumps (JObj [("error", JStr "Task failed")]);
          batch_info := batch_info |}
  else
    Raise (ReQueueAfterSignal 30).

End Node.

End Polling.

(** ** [nodes/chunking.py]: the chunk planner *)

Module Chunking.
Import Py.

Record Outputs : Type := { chunk : string }.

Section Node.

Variable json_loads : string -> option JSON.
Variable json_dumps : JSON -> string.

(** The loop [for i in range(0, len(file_paths), chunk_size)] with its
    body [file_paths[i:i + chunk_size]]. *)
Definition create_chunks (file_paths : JSON) (chunk_size : Z)
  : result (list JSON) :=
  n ← py_len file_paths;
  starts ← range 0 n chunk_size;
  traverse (fun i => getslice file_paths i (i + chunk_size)) starts.

(** [execute]: the [try] around the parsing re-raises; the length of the
    parsed value is taken inside it, for the log line. *)
Definition execute (file_paths chunk_size : string)
  : result (list Outputs) :=
  paths ← loads json_loads file_paths;
  size ← int chunk_size;
  _ ← py_len paths;
  chunks ← create_chunks paths size;
  Ok (map (fun c => {| chunk := json_dumps c |}) chunks).

End Node.

End Chunking.

(** ** [nodes/validation.py]: the validator *)

Module Validation.
Import Py.

Record Outputs : Type := {
  validated_data : string;
  validation_status : string
}.

(** The schemas the node writes: each has a ["type"], and an object
    schema may list ["properties"] and ["required"] names. *)
Inductive Schema : Type :=
  | mkSchema (type : string)
             (properties : list (string * Schema))
             (required : list string).

(** A float counts as an integer for jsonschema when it has no
    fractional part. *)
Definition float_is_integer (f : spec_float) : bool :=
  match f with
  | S754_zero _ => true
  | S754_finite _ m e =>
      if 0 <=? e then true else Z.pos m mod 2 ^ (- e) =? 0
  | _ => false
  end.

(** The ["type"] keyword. *)
Definition has_type (type : string) (v : JSON) : bool :=
  if String.eqb type "object" then
    match v with JObj _ => true | _ => false end
  else if String.eqb type "string" then
    match v with JStr _ => true | _ => false end
  else if String.eqb type "integer" then
    match v with
    | JInt _ => true
    | JFloat f => float_is_integer f
    | _ => false
    end
  else if String.eqb type "number" then
    match v with JInt _ | JFloat _ => true | _ => false end
  else if String.eqb type "array" then
    match v with JArr _ => true | _ => false end
  else if String.eqb type "boolean" then
    match v with JBool _ => true | _ => false end
  else if String.eqb type "null" then
    match v with JNull => true | _ => false end
  else false.

Definition has_key (d : list (string * JSON)) (k : string) : bool :=
  match dict_get d k with
  | Some _ => true
  | None => false
  end.

(** [jsonschema.validate(instance, schema)] succeeds: the type matches
    and, for a dict, every required name is a key and every key that has
    a property schema satisfies it. *)
Fixpoint conforms (schema : Schema) (v : JSON) : bool :=
  match schema with
  | mkSchema type properties required =>
      has_type type v &&
      match v with
      | JObj d =>
          forallb (has_key d) required &&
          (fix each (ps : list (string * Schema)) : bool :=
             match ps with
             | [] => true
             | (k, sub) :: ps' =>
                 match dict_get d k with
                 | Some x => conforms sub x
                 | None => true
                 end && each ps'
             end) properties
      | _ => true
      end
  end.

Definition leaf (type : string) : Schema := mkSchema type [] [].

(** The expected JSON schema for individual extracted data. *)
Definition schema : Schema :=
  mkSchema "object"
    [ ("task_id", leaf "string");
      ("status", leaf "string");
      ("result_index", leaf "integer");
      ("file_path", leaf "string");
      ("extracted_data",
       mkSchema "object"
         [ ("title", leaf "string");
           ("content", leaf "string");
           ("metadata", leaf "object") ]
         ["title"; "content"]);
      ("batch_info", leaf "object");
      ("split_timestamp", leaf "string") ]
    ["task_id"; "status"; "file_path"; "extracted_data"].

Section Node.

Variable json_loads : string -> option JSON.
Variable json_dumps : JSON -> string.
(** [str(e)] for the [ValidationError] jsonschema raises on an
    instance. *)
Variable error_message : JSON -> string.
(** [datetime.now().isoformat()] at the call. *)
Variable timestamp : string.

(** The heuristic checks that follow a successful schema check. *)
Definition heuristic_status (extracted_data : JSON) : result string :=
  title ← get extracted_data "title" JNull;
  content_or_none ← get extracted_data "content" JNull;
  let validation_status :=
    if negb (truthy title) || negb (truthy content_or_none)
    then "partial" else "valid" in
  content ← get extracted_data "content" (JStr "");
  stripped ← str_strip content;
  Ok (if len stripped <? 10 then "partial" else validation_status).

Definition execute (individual_result batch_info : string)
  : result Outputs :=
  individual_result ← loads json_loads individual_result;
  batch_info ← loads json_loads batch_info;
  _ ← get individual_result "task_id" (JStr "unknown");
  _ ← get individual_result "file_path" (JStr "unknown");
  if conforms schema individual_result then
    file_path ← get individual_result "file_path" (JStr "");
    extracted_data ← get individual_result "extracted_data" (JObj []);
    validation_status ← heuristic_status extracted_data;
    task_id ← get individual_result "task_id" JNull;
    status ← get individual_result "status" JNull;
    result_index ← get individual_result "result_index" JNull;
    Ok {| validated_data := json_dumps (JObj
            [ ("task_id", task_id);
              ("status", status);
              ("result_index", result_index);
              ("file_path", file_path);
              ("extracted_data", extracted_data);
              ("validation_timestamp", JStr timestamp);
              ("validation_status", JStr validation_status);
              ("batch_info", batch_info) ]);
          validation_status := validation_status |}
  else
    task_id ← get individual_result "task_id" (JStr "unknown");
    result_index ← get individual_result "result_index" (JInt (-1));
    file_path ← get individual_result "file_path" (JStr "unknown");
    Ok {| validated_data := json_dumps (JObj
            [ ("task_id", task_id);
              ("status", JStr "validation_failed");
              ("result_index", result_index);
              ("file_path", file_path);
              ("error", JStr (error_message individual_result));
              ("validation_timestamp", JStr timestamp);
              ("validation_status", JStr "invalid");
              ("batch_info", batch_info) ]);
          validation_status := "invalid" |}.

End Node.

(** The structural check in the words of the design document: required
    string fields [task_id], [status], [file_path], and a required object
    [extracted_data] with required string fields [title] and
    [content]. *)
Definition is_string_field (d : list (string * JSON)) (k : string) : bool :=
  match dict_get d k with
  | Some (JStr _) => true
  | _ => false
  end.



End Validation.

(** ** [nodes/failure_handling.py]: the failure router *)

Module FailureHandling.
Import Py.

Record Outputs : Type := {
  failure_csv_path : string;
  retry_count : string
}.

(** The part of the file system the node touches: the directories it
    makes and, per path, the rows of the CSV file written there (the
    cells as handed to [writer.writerow]). *)
Record FS : Type := {
  dirs : gset string;
  files : gmap string (list (list JSON))
}.

Section Node.

Variable json_loads : string -> option JSON.
(** [str(v)] of a value that is not a string, for the file name. *)
Variable repr : JSON -> string.
(** [datetime.now()] at the two calls: [strftime("%Y%m%d_%H%M%S")] for
    the file name and [isoformat()] for the row. *)
Variable now_compact : string.
Variable now_iso : string.

Definition format (v : JSON) : string :=
  match v with
  | JStr s => s
  | _ => repr v
  end.

(** Get the reason for failure for the individual result. *)
Definition _get_failure_reason (validation_status : string)
    (validated_data : JSON) : result string :=
  if String.eqb validation_status "invalid" then
    Ok "schema_validation_failed"
  else if String.eqb validation_status "partial" then
    extracted_data ← get validated_data "extracted_data" (JObj []);
    title ← get extracted_data "title" JNull;
    if negb (truthy title) then Ok "missing_title"
    else
      content_or_none ← get extracted_data "content" JNull;
      if negb (truthy content_or_none) then Ok "missing_content"
      else
        content ← get extracted_data "content" (JStr "");
        stripped ← str_strip content;
        if len stripped <? 10 then Ok "content_too_short"
        else Ok "validation_failed"
  else Ok "unknown_failure".

(** Create a CSV file with the failed file path for retry.  The
    directory is made before anything can raise. *)
Definition _create_failure_csv (validation_status : string)
    (validated_data : JSON) (fs : FS) : result string * FS :=
  let failures_dir := "failures" in
  let fs := {| dirs := {[ failures_dir ]} ∪ dirs fs; files := files fs |} in
  let written :=
    task_id ← get validated_data "task_id" (JStr "unknown");
    let filename :=
      "failures_" +:+ format task_id +:+ "_" +:+ now_compact +:+ ".csv" in
    let file_path := failures_dir +:+ "/" +:+ filename in
    failed_file_path ← get validated_data "file_path" (JStr "");
    failure_reason ← _get_failure_reason validation_status validated_data;
    Ok (file_path,
        [ [JStr "file_path"; JStr "failure_reason"; JStr "task_id";
           JStr "timestamp"];
          [failed_file_path; JStr failure_reason; task_id; JStr now_iso] ])
  in
  match written with
  | Ok (file_path, rows) =>
      (Ok file_path,
       {| dirs := dirs fs; files := <[file_path := rows]> (files fs) |})
  | Raise e => (Raise e, fs)
  end.

Definition execute (validation_status batch_info validated_data : string)
    (fs : FS) : result Outputs * FS :=
  let parsed :=
    batch_info ← loads json_loads batch_info;
    validated_data ← loads json_loads validated_data;
    _ ← get validated_data "task_id" (JStr "unknown");
    _ ← get validated_data "file_path" (JStr "unknown");
    Ok validated_data in
  match parsed with
  | Raise e => (Raise e, fs)
  | Ok validated_data =>
      if String.eqb validation_status "valid" then
        (Ok {| failure_csv_path := ""; retry_count := "0" |}, fs)
      else
        match _create_failure_csv validation_status validated_data fs with
        | (Raise e, fs') => (Raise e, fs')
        | (Ok failure_csv_path, fs') =>
            let retry_count :=
              if String.eqb validation_status "invalid"
                 || String.eqb validation_status "partial"
              then "1" else "0" in
            (Ok {| failure_csv_path := failure_csv_path;
                   retry_count := retry_count |}, fs')
        end
  end.

End Node.

End FailureHandling.

(** ** [nodes/split_results.py]: the result splitter *)

Module SplitResults.
Import Py.

Record Outputs : Type := {
  individual_result : string;
  batch_info : string
}.

(** ["_" in v] *)
Definition contains_underscore (v : JSON) : result bool :=
  match v with
  | JStr s => Ok (contains_char "_" s)
  | JArr l =>
      Ok (existsb (fun x => match x with
                            | JStr s => String.eqb s "_"
                            | _ => false
                            end) l)
  | JObj d => Ok (match dict_get d "_" with Some _ => true | None => false end)
  | _ => Raise TypeError
  end.

Section Node.

Variable json_loads : string -> option JSON.
Variable json_dumps : JSON -> string.
(** [datetime.now().isoformat()] in the iteration with the given
    index. *)
Variable timestamp : nat -> string.

Definition response_metadata (response_id model_version usage_metadata : JSON)
  : JSON :=
  JObj [ ("response_id", response_id);
         ("model_version", model_version);
         ("usage_metadata", usage_metadata) ].

(** The body of the loop over [enumerate(results)]; [json.loads] of a
    value that is not a string is a [TypeError]. *)
Definition split_one (task_id status batch_info : JSON) (i : nat)
    (result : JSON) : Py.result JSON :=
  content ← get result "content" (JStr "");
  response_id ← get result "response_id" (JStr ("response_" +:+ pretty i));
  model_version ← get result "model_version" (JStr "unknown");
  usage_metadata ← get result "usage_metadata" (JObj []);
  extracted_data ←
    (if truthy content then
       match content with
       | JStr text =>
           match json_loads text with
           | Some v => Ok v
           | None =>
               Ok (JObj
                 [ ("title", JStr "Document");
                   ("content", content);
                   ("metadata",
                    response_metadata response_id model_version
                      usage_metadata) ])
           end
       | _ => Raise TypeError
       end
     else
       Ok (JObj
         [ ("title", JStr "Empty Response");
           ("content", JStr "No content received");
           ("metadata",
            response_metadata response_id model_version usage_metadata) ]));
  has_underscore ← contains_underscore response_id;
  let file_path :=
    if (has_underscore : bool) then response_id else JStr "" in
  Ok (JObj
    [ ("task_id", task_id);
      ("status", status);
      ("result_index", JInt (Z.of_nat i));
      ("response_id", response_id);
      ("model_version", model_version);
      ("usage_metadata", usage_metadata);
      ("file_path", file_path);
      ("extracted_data", extracted_data);
      ("batch_info", batch_info);
      ("split_timestamp", JStr (timestamp i)) ]).

(** [for i, result in enumerate(results)], counting from [i]. *)
Fixpoint split_from (task_id status batch_info : JSON) (i : nat)
    (results : list JSON) : Py.result (list JSON) :=
  match results with
  | [] => Ok []
  | result :: rest =>
      r ← split_one task_id status batch_info i result;
      rs ← split_from task_id status batch_info (S i) rest;
      Ok (r :: rs)
  end.

Definition execute (task_result batch_info : string)
  : Py.result (list Outputs) :=
  task_result ← loads json_loads task_result;
  batch_info ← loads json_loads batch_info;
  _ ← get batch_info "task_id" (JStr "unknown");
  results ← get task_result "results" (JArr []);
  task_id ← get task_result "task_id" (JStr "unknown");
  status ← get task_result "status" (JStr "unknown");
  if negb (truthy results) then Ok []
  else
    entries ← iterate results;
    individual_results ← split_from task_id status batch_info 0 entries;
    Ok (map (fun r => {| individual_result := json_dumps r;
                         batch_info := json_dumps batch_info |})
            individual_results).

End Node.

(** The entries the body of the loop accepts: a dict whose content, when
    it is truthy, is a string, and whose response id, when present, is a
    string, a list or a dict. *)
Definition splittable (entry : JSON) : bool :=
  match entry with
  | JObj d =>
      match dict_get d "content" with
      | None | Some (JStr _) => true
      | Some content => negb (truthy content)
      end &&
      match dict_get d "response_id" with
      | None | Some (JStr _) | Some (JArr _) | Some (JObj _) => true
      | Some _ => false
      end
  | _ => false
  end.

(** [individual_result["result_index"]] *)
Definition result_index (individual_result : JSON) : option JSON :=
  match individual_result with
  | JObj d => dict_get d "result_index"
  | _ => None
  end.

End SplitResults.

(** ** [nodes/file_parsing.py]: content extraction for a chunk *)

Module FileParsing.
Import Py.

Record Outputs : Type := {
  parsed_files : string;
  task_id : string
}.

Section Node.

Variable json_loads : string -> option JSON.
Variable json_dumps : JSON -> string.
(** [str(uuid.uuid4())] *)
Variable uuid4 : string.
(** [str(e)] *)
Variable exn_str : exn -> string.
(** The readers: a text file opened as UTF-8 and read; the text of a PDF
    through pdfplumber and through PyPDF2; the text of a DOCX through
    python-docx.  [None] is an [ImportError]. *)
Variable open_read : string -> result string.
Variable pdfplumber_text : string -> option (result string).
Variable pypdf2_text : string -> result string.
Variable docx_text : string -> option (result string).

(** Read content from a file based on its extension; a path that is not
    a string has no [endswith]. *)
Definition _read_file_content (file_path : JSON) : result string :=
  match file_path with
  | JStr path =>
      if endswith path ".txt" then open_read path
      else if endswith path ".pdf" then
        match pdfplumber_text path with
        | Some r => r
        | None => pypdf2_text path
        end
      else if endswith path ".docx" then
        match docx_text path with
        | Some r => r
        | None =>
            Ok ("[DOCX content from " +:+ path
                +:+ " - python-docx not installed]")
        end
      else open_read path
  | _ => Raise AttributeError
  end.

(** The body of the loop over the paths: an exception of the reader is
    caught and turned into an entry with a marker. *)
Definition parse_file (file_path : JSON) : JSON :=
  match _read_file_content file_path with
  | Ok content =>
      JObj [ ("file_path", file_path); ("content", JStr content) ]
  | Raise e =>
      JObj [ ("file_path", file_path);
             ("content",
              JStr ("[ERROR: Failed to read file - " +:+ exn_str e +:+ "]"));
             ("error", JStr (exn_str e)) ]
  end.

Definition execute (chunk : string) : result Outputs :=
  file_paths ← loads json_loads chunk;
  _ ← py_len file_paths;
  entries ← iterate file_paths;
  Ok {| parsed_files := json_dumps (JArr (map parse_file entries));
        task_id := uuid4 |}.

End Node.

End FileParsing.

(** ** [nodes/batch_request.py]: the requests of a batch *)

Module BatchRequest.
Import Py.

(** [v[k]] for a string key: only a dict can have it. *)
Definition getitem (v : JSON) (k : string) : result JSON :=
  match v with
  | JObj d =>
      match dict_get d k with
      | Some x => Ok x
      | None => Raise KeyError
      end
  | _ => Raise TypeError
  end.

Section Node.

(** [str(v)] of a value that is not a string. *)
Variable repr : JSON -> string.

Definition format (v : JSON) : string :=
  match v with
  | JStr s => s
  | _ => repr v
  end.

Definition newline : string := String "010" EmptyString.

(** The body of the loop that creates the inline requests. *)
Definition inline_request (prompt : string) (file_data : JSON)
  : result JSON :=
  content ← getitem file_data "content";
  Ok (JObj
    [ ("contents", JArr
        [ JObj
            [ ("parts", JArr
                [ JObj
                    [ ("text",
                       JStr (prompt +:+ newline +:+ newline
                             +:+ "Document content:" +:+ newline
                             +:+ format content)) ] ]);
              ("role", JStr "user") ] ]) ]).

(** [for file_data in parsed_files: inline_requests.append(request)] *)
Definition inline_requests (prompt : string) (parsed_files : JSON)
  : result (list JSON) :=
  entries ← iterate parsed_files;
  traverse (inline_request prompt) entries.

End Node.

Record Outputs : Type := {
  task_id : string;
  batch_info : string
}.

(** A call of [client.batches.create]: the inline requests and the
    display name. *)
Record Submission : Type := {
  src : list JSON;
  display_name : string
}.

Section Submit.

Variable json_loads : string -> option JSON.
Variable json_dumps : JSON -> string.
Variable repr : JSON -> string.
(** [client.batches.create(...).name] *)
Variable batches_create : Submission -> result string.

(** What [execute] computes before it calls the service: the number of
    parsed files, their paths and the inline requests. *)
Definition prepare (parsed_files prompt : string)
  : result (Z * list JSON * list JSON) :=
  parsed_files ← loads json_loads parsed_files;
  _ ← py_len parsed_files;
  file_count ← py_len parsed_files;
  entries ← iterate parsed_files;
  file_paths ← traverse (fun file_data => getitem file_data "file_path")
                 entries;
  requests ← inline_requests repr prompt parsed_files;
  Ok (file_count, file_paths, requests).

(** [execute], with the calls it makes of the service. *)
Definition execute (parsed_files task_id prompt : string)
  : result Outputs * list Submission :=
  match prepare parsed_files prompt with
  | Raise e => (Raise e, [])
  | Ok (file_count, file_paths, requests) =>
      let submission :=
        {| src := requests; display_name := "batch_job_" +:+ task_id |} in
      match batches_create submission with
      | Raise e => (Raise e, [submission])
      | Ok actual_batch_id =>
          (Ok {| task_id := actual_batch_id;
                 batch_info := json_dumps (JObj
                   [ ("task_id", JStr task_id);
                     ("file_count", JInt file_count);
                     ("file_paths", JArr file_paths);
                     ("status", JStr "submitted");
                     ("gemini_batch_id", JStr actual_batch_id);
                     ("request_count",
                      JInt (Z.of_nat (length requests))) ]) |},
           [submission])
      end
  end.

End Submit.

End BatchRequest.

(** ** [sync-process-docs/nodes/file_distribution.py] *)

Module FileDistribution.
Import Py.

Record Outputs : Type := { file_path : string }.

Section Node.

Variable json_loads : string -> option JSON.
Variable json_dumps : JSON -> string.

(** [execute]: one output per element of the parsed value; its length
    is taken inside the [try], for the log line. *)
Definition execute (file_paths : string) : result (list Outputs) :=
  file_paths ← loads json_loads file_paths;
  _ ← py_len file_paths;
  entries ← iterate file_paths;
  Ok (map (fun file_path => {| file_path := json_dumps file_path |}) entries).

End Node.

End FileDistribution.

(** ** [nodes/database_write.py]: the persistence writer *)

Module DatabaseWrite.
Import Py.

Record Outputs : Type := {
  write_status : string;
  record_count : string
}.

(** What the node does with the MongoDB client, in order.  [Connect] is
    the construction of the client, which connects lazily and is taken
    not to raise. *)
Inductive event : Type :=
  | Connect
  | CreateIndex (key : string)
  | InsertOne (document : JSON)
  | Close.

Section Node.

Variable json_loads : string -> option JSON.
(** The exception of [collection.create_index(key)] and of
    [collection.insert_one(document)], if any. *)
Variable create_index : string -> option exn.
Variable insert_one : JSON -> option exn.
(** [datetime.now()] in [_write_record]. *)
Variable current_time : JSON.

(** [await collection.create_index(key)] for the keys in turn. *)
Fixpoint create_indexes (keys : list string) : result unit * list event :=
  match keys with
  | [] => (Ok (), [])
  | key :: keys' =>
      match create_index key with
      | Some e => (Raise e, [CreateIndex key])
      | None =>
          let '(r, events) := create_indexes keys' in
          (r, CreateIndex key :: events)
      end
  end.

(** Ensure the collection exists and create indexes; the [except]
    clause re-raises. *)
Definition _ensure_collection_exists : result unit * list event :=
  create_indexes ["task_id"; "file_path"; "processing_status"; "created_at"].

(** Write a single record to the MongoDB collection. *)
Definition _write_record (validated_data batch_info : JSON)
  : result unit * list event :=
  match
    task_id ← get validated_data "task_id" (JStr "unknown");
    file_path ← get validated_data "file_path" (JStr EmptyString);
    extracted_data ← get validated_data "extracted_data" (JObj []);
    processing_status ←
      get validated_data "validation_status" (JStr "completed");
    Ok (JObj [ ("task_id", task_id);
               ("file_path", file_path);
               ("extracted_data", extracted_data);
               ("processing_status", processing_status);
               ("created_at", current_time);
               ("updated_at", current_time);
               ("batch_info", batch_info) ])
  with
  | Raise e => (Raise e, [])
  | Ok document =>
      match insert_one document with
      | Some e => (Raise e, [InsertOne document])
      | None => (Ok (), [InsertOne document])
      end
  end.

(** [execute]: an exception of [_ensure_collection_exists] leaves the
    outer [try] before the inner one is entered; an exception of
    [_write_record] is caught, and the [finally] closes the client. *)
Definition execute (validated_data batch_info : string)
  : result Outputs * list event :=
  match
    validated_data ← loads json_loads validated_data;
    batch_info ← loads json_loads batch_info;
    _ ← get validated_data "task_id" (JStr "unknown");
    _ ← get validated_data "file_path" (JStr "unknown");
    Ok (validated_data, batch_info)
  with
  | Raise e => (Raise e, [])
  | Ok (validated_data, batch_info) =>
      match _ensure_collection_exists with
      | (Raise e, events) => (Raise e, Connect :: events)
      | (Ok _, events) =>
          match _write_record validated_data batch_info with
          | (Ok _, written) =>
              (Ok {| write_status := "success"; record_count := "1" |},
               Connect :: events ++ written ++ [Close])
          | (Raise _, written) =>
              (Ok {| write_status := "failed"; record_count := "0" |},
               Connect :: events ++ written ++ [Close])
          end
      end
  end.

End Node.

End DatabaseWrite.

(** ** [sync-process-docs/nodes/sync_processing.py] *)

Module SyncProcessing.
Import Py.

Record Outputs : Type := {
  task_id : string;
  file_info : string
}.

(** What the node reads of the response of [generate_content]. *)
Record Response : Type := {
  candidates : list Polling.Candidate;
  usage_metadata : Polling.Usage
}.

Section Node.

Variable json_loads : string -> option JSON.
Variable json_dumps : JSON -> string.
Variable uuid4 : string.
Variable open_read : string -> result string.
Variable pdfplumber_text : string -> option (result string).
Variable pypdf2_text : string -> result string.
Variable docx_text : string -> option (result string).
(** [client.models.generate_content(model=..., contents=...)] *)
Variable generate_content : JSON -> result Response.

(** Read content from a file based on its extension. *)
Definition _read_file_content (file_path : JSON) : result string :=
  match file_path with
  | JStr path =>
      if endswith path ".txt" then open_read path
      else if endswith path ".pdf" then
        match pdfplumber_text path with
        | Some r => r
        | None => pypdf2_text path
        end
      else if endswith path ".docx" then
        match docx_text path with
        | Some r => r
        | None =>
            Ok ("[DOCX content from " +:+ path
                +:+ " - python-docx not installed]")
        end
      else open_read path
  | _ => Raise AttributeError
  end.

Definition newline : string := String "010" EmptyString.

(** [request['contents']] *)
Definition contents (prompt content : string) : JSON :=
  JArr [ JObj [ ("parts", JArr
                   [ JObj [ ("text",
                             JStr (prompt +:+ newline +:+ newline
                                   +:+ "Document content:" +:+ newline
                                   +:+ content)) ] ]);
                ("role", JStr "user") ] ].

(** [execute], with the requests it sends to the service.  Nothing in it
    is caught after the parsing. *)
Definition execute (file_path prompt : string)
  : result Outputs * list JSON :=
  match
    file_path ← loads json_loads file_path;
    content ← _read_file_content file_path;
    Ok (file_path, content)
  with
  | Raise e => (Raise e, [])
  | Ok (file_path, content) =>
      let request := contents prompt content in
      match generate_content request with
      | Raise e => (Raise e, [request])
      | Ok response =>
          let file_info (status : string) (rest : list (string * JSON)) :=
            JObj ([ ("task_id", JStr uuid4);
                    ("file_path", file_path);
                    ("prompt", JStr prompt);
                    ("status", JStr status) ] ++ rest) in
          match candidates response with
          | [] =>
              (Ok {| task_id := uuid4;
                     file_info := json_dumps
                       (file_info "failed"
                          [ ("error",
                             JStr "No response received from Gemini") ]) |},
               [request])
          | candidate :: _ =>
              match Polling.parts_text candidate with
              | [] => (Raise IndexError, [request])
              | response_content :: _ =>
                  let usage := usage_metadata response in
                  (Ok {| task_id := uuid4;
                         file_info := json_dumps
                           (file_info "completed"
                              [ ("response_content", response_content);
                                ("usage_metadata", JObj
                                  [ ("prompt_token_count",
                                     Polling.prompt_token_count usage);
                                    ("candidates_token_count",
                                     Polling.candidates_token_count usage);
                                    ("total_token_count",
                                     Polling.total_token_count usage);
                                    ("cached_content_token_count",
                                     default (JInt 0)
                                       (Polling.cached_content_token_count
                                          usage)) ]) ]) |},
                   [request])
              end
          end
      end
  end.

End Node.

End SyncProcessing.

(** ** [sync-process-docs/nodes/validation.py] *)

Module SyncValidation.
Import Py.

Record Outputs : Type := {
  validated_result : string;
  file_info : string
}.

(** [v == s] for a string [s] *)
Definition equals_str (v : JSON) (s : string) : bool :=
  match v with
  | JStr t => String.eqb t s
  | _ => false
  end.

Section Node.

Variable json_loads : string -> option JSON.
Variable json_dumps : JSON -> string.
Variable timestamp : string.

Definition execute (file_info : string) : result Outputs :=
  info ← loads json_loads file_info;
  _ ← get info "file_path" (JStr "unknown");
  response_content ← get info "response_content" (JStr EmptyString);
  file_path ← get info "file_path" (JStr EmptyString);
  task_id ← get info "task_id" (JStr EmptyString);
  status ← get info "status" (JStr "unknown");
  validated_result ←
    (if negb (equals_str status "completed") then
       error ← get info "error" (JStr "Processing failed");
       Ok (JObj [ ("task_id", task_id);
                  ("file_path", file_path);
                  ("status", JStr "failed");
                  ("error", error);
                  ("validation_timestamp", JStr timestamp) ])
     else
       extracted_data ←
         match response_content with
         | JStr text =>
             match json_loads text with
             | Some v => Ok v
             | None =>
                 Ok (JObj
                   [ ("title", JStr "Document");
                     ("content", response_content);
                     ("metadata", JObj
                        [ ("file_path", file_path);
                          ("task_id", task_id);
                          ("response_format", JStr "plain_text") ]) ])
             end
         | _ => Raise TypeError
         end;
       usage_metadata ← get info "usage_metadata" (JObj []);
       Ok (JObj [ ("task_id", task_id);
                  ("file_path", file_path);
                  ("status", JStr "completed");
                  ("extracted_data", extracted_data);
                  ("usage_metadata", usage_metadata);
                  ("validation_timestamp", JStr timestamp) ]));
  Ok {| validated_result := json_dumps validated_result;
        file_info := file_info |}.

End Node.

End SyncValidation.

(** ** [sync-process-docs/nodes/failure_handling.py] *)

Module SyncFailureHandling.
Import Py.

Record Outputs : Type := { failure_status : string }.

Section Node.

Variable json_loads : string -> option JSON.
(** [datetime.now()] at the two calls, as in the batch node. *)
Variable now_compact : string.
Variable now_iso : string.

Definition execute (validated_result file_info : string)
    (fs : FailureHandling.FS) : result Outputs * FailureHandling.FS :=
  match
    validated_result ← loads json_loads validated_result;
    _ ← loads json_loads file_info;
    _ ← get validated_result "file_path" (JStr "unknown");
    status ← get validated_result "status" (JStr "unknown");
    file_path ← get validated_result "file_path" (JStr EmptyString);
    task_id ← get validated_result "task_id" (JStr EmptyString);
    error ← get validated_result "error" (JStr "Unknown error");
    Ok (status, file_path, task_id, error)
  with
  | Raise e => (Raise e, fs)
  | Ok (status, file_path, task_id, error) =>
      if SyncValidation.equals_str status "failed" then
        let failures_dir := "failures" in
        let failure_csv :=
          failures_dir +:+ "/" +:+ "failed_files_" +:+ now_compact
          +:+ ".csv" in
        (Ok {| failure_status := "failure_logged" |},
         {| FailureHandling.dirs :=
              {[ failures_dir ]} ∪ FailureHandling.dirs fs;
            FailureHandling.files :=
              <[ failure_csv :=
                 [ [JStr "file_path"; JStr "task_id"; JStr "error";
                    JStr "timestamp"];
                   [file_path; task_id; error; JStr now_iso] ] ]>
                (FailureHandling.files fs) |})
      else (Ok {| failure_status := "no_failure" |}, fs)
  end.

End Node.

End SyncFailureHandling.

(** ** [sync-process-docs/nodes/database_write.py] *)

Module SyncDatabaseWrite.
Import Py.

Record Outputs : Type := { write_status : string }.

(** What the node does with the MongoDB client, in order. *)
Inductive event : Type :=
  | Connect
  | UpdateOne (filter update : JSON) (upsert : bool)
  | Close.

Section Node.

Variable json_loads : string -> option JSON.
(** The exception of [collection.update_one(...)], if any. *)
Variable update_one : JSON -> JSON -> option exn.
(** [datetime.utcnow()] at the two calls. *)
Variable updated_at : JSON.
Variable created_at : JSON.

(** [execute]: nothing is caught after the parsing, and the client is
    closed after the update. *)
Definition execute (validated_result file_info : string)
  : result Outputs * list event :=
  match
    validated_result ← loads json_loads validated_result;
    _ ← loads json_loads file_info;
    _ ← get validated_result "file_path" (JStr "unknown");
    file_path ← get validated_result "file_path" (JStr EmptyString);
    task_id ← get validated_result "task_id" (JStr EmptyString);
    status ← get validated_result "status" (JStr "unknown");
    extracted_data ← get validated_result "extracted_data" (JObj []);
    usage_metadata ← get validated_result "usage_metadata" (JObj []);
    validation_timestamp ←
      get validated_result "validation_timestamp" (JStr EmptyString);
    Ok (JObj [("task_id", task_id)],
        JObj [ ("$set", JObj
                  [ ("task_id", task_id);
                    ("file_path", file_path);
                    ("status", status);
                    ("extracted_data", extracted_data);
                    ("usage_metadata", usage_metadata);
                    ("validation_timestamp", validation_timestamp);
                    ("updated_at", updated_at) ]);
               ("$setOnInsert", JObj [("created_at", created_at)]) ])
  with
  | Raise e => (Raise e, [])
  | Ok (filter, update) =>
      match update_one filter update with
      | Some e => (Raise e, [Connect; UpdateOne filter update true])
      | None =>
          (Ok {| write_status := "success" |},
           [Connect; UpdateOne filter update true; Close])
      end
  end.

End Node.

End SyncDatabaseWrite.

(** ** Example environment

    A fragment of the graph of [json.loads] on the literals the examples
    use, a serialiser for the values they produce (strings without
    escapes, no floats), and stubs for the services. *)

Module Examples.
Import Py.

Definition quote : string := String "034" EmptyString.

Fixpoint example_dumps (v : JSON) : string :=
  match v with
  | JNull => "null"
  | JBool true => "true"
  | JBool false => "false"
  | JInt n => pretty n
  | JFloat _ => "NaN"
  | JStr s => quote +:+ s +:+ quote
  | JArr l =>
      "[" +:+
      (fix items (l : list JSON) : string :=
         match l with
         | [] => EmptyString
         | x :: l' =>
             example_dumps x +:+
             match l' with [] => EmptyString | _ => ", " +:+ items l' end
         end) l
      +:+ "]"
  | JObj d =>
      "{" +:+
      (fix items (d : list (string * JSON)) : string :=
         match d with
         | [] => EmptyString
         | (k, x) :: d' =>
             quote +:+ k +:+ quote +:+ ": " +:+ example_dumps x +:+
             match d' with [] => EmptyString | _ => ", " +:+ items d' end
         end) d
      +:+ "}"
  end.

(** The graph of [json.loads] on a finite table of literals. *)
Fixpoint table_loads (table : list (string * JSON)) (s : string)
  : option JSON :=
  match table with
  | [] => None
  | (text, v) :: table' =>
      if String.eqb text s then Some v else table_loads table' s
  end.

Definition example_record (title content : string) : JSON :=
  JObj [ ("task_id", JStr "batches/1");
         ("status", JStr "completed");
         ("result_index", JInt 0);
         ("file_path", JStr "a_1");
         ("extracted_data",
          JObj [ ("title", JStr title); ("content", JStr content) ]) ].

Definition example_paths : JSON :=
  JArr (map JStr
    [ "a.txt"; "b.txt"; "c.pdf"; "d.txt"; "e.docx"; "f.txt";
      "g.txt"; "h.txt"; "i.txt"; "j.txt"; "k.txt"; "l.txt" ]).

(** The same record without its [task_id]. *)
Definition example_record_no_task (title content : string) : JSON :=
  JObj [ ("status", JStr "completed");
         ("result_index", JInt 0);
         ("file_path", JStr "a_1");
         ("extracted_data",
          JObj [ ("title", JStr title); ("content", JStr content) ]) ].

(** The same record with one more field in front. *)
Definition example_record_extra (title content : string) : JSON :=
  match example_record title content with
  | JObj d => JObj (("model_version", JStr "gemini-2.5-flash") :: d)
  | v => v
  end.

Definition example_timestamp : string := "2025-01-01T00:00:00".

(** What the validator returns for [example_record] when the batch
    information is the empty dict. *)
Definition example_validated (title content status : string) : JSON :=
  JObj [ ("task_id", JStr "batches/1");
         ("status", JStr "completed");
         ("result_index", JInt 0);
         ("file_path", JStr "a_1");
         ("extracted_data",
          JObj [ ("title", JStr title); ("content", JStr content) ]);
         ("validation_timestamp", JStr example_timestamp);
         ("validation_status", JStr status);
         ("batch_info", JObj []) ].

Definition example_entry (response_id content : string) : JSON :=
  JObj [ ("response_id", JStr response_id);
         ("model_version", JStr "gemini-2.5-flash");
         ("content", JStr content);
         ("usage_metadata", JObj [("total_token_count", JInt 42)]) ].

(** A completed job with five inline results. *)
Definition example_entries : list JSON :=
  [ example_entry "r_0" "first document";
    example_entry "r_1" "second document";
    example_entry "r_2" EmptyString;
    example_entry "r3" "7";
    example_entry "r_4" "fifth document" ].

Definition example_task_result : JSON :=
  JObj [ ("task_id", JStr "batches/1");
         ("status", JStr "completed");
         ("results", JArr example_entries) ].

Definition example_table : list (string * JSON) :=
  let records :=
    [ example_paths;
      example_record "Quarterly report" "Revenue grew by ten percent.";
      example_record_no_task "Quarterly report" "Revenue grew by ten percent.";
      example_record_extra "Quarterly report" "Revenue grew by ten percent.";
      example_record EmptyString "hello";
      example_record "x" "short";
      example_validated "Quarterly report" "Revenue grew by ten percent."
        "valid";
      example_validated EmptyString "hello" "partial";
      example_validated "x" "short" "partial";
      example_task_result ] in
  [ ("{}", JObj []); ("[]", JArr []); ("7", JInt 7) ]
  ++ map (fun v => (example_dumps v, v)) records.

Definition example_loads : string -> option JSON :=
  table_loads example_table.

Definition example_job (state : string) : Polling.BatchJob :=
  {| Polling.state_name := state; Polling.dest := None |}.

Definition example_error_message (v : JSON) : string :=
  "instance does not match the schema".

(** Readers for a file system where [b.txt] is missing and no PDF or DOCX
    library is installed. *)
Definition example_open_read (path : string) : result string :=
  if String.eqb path "b.txt" then Raise (External "No such file: b.txt")
  else Ok ("text of " +:+ path).

Definition example_exn_str (e : exn) : string :=
  match e with
  | External msg => msg
  | _ => "error"
  end.

Definition empty_fs : FailureHandling.FS :=
  {| FailureHandling.dirs := ∅; FailureHandling.files := ∅ |}.

Definition example_usage : Polling.Usage :=
  {| Polling.prompt_token_count := JInt 30;
     Polling.candidates_token_count := JInt 12;
     Polling.total_token_count := JInt 42;
     Polling.cached_content_token_count := None |}.

Definition example_response (id : string) (texts : list string)
  : Polling.Response :=
  {| Polling.response_id := JStr id;
     Polling.model_version := JStr "gemini-2.5-flash";
     Polling.candidates :=
       map (fun text => {| Polling.parts_text := [JStr text] |}) texts;
     Polling.usage_metadata := example_usage |}.

(** A succeeded job with two inlined responses, the second without a
    candidate, and a succeeded job with its results in a file. *)
Definition example_inline_job : Polling.BatchJob :=
  {| Polling.state_name := "JOB_STATE_SUCCEEDED";
     Polling.dest :=
       Some {| Polling.inlined_responses :=
                 Some [ example_response "r_0" ["first document"];
                        example_response "r_1" [] ];
               Polling.file_name := None |} |}.


(** The records the splitter makes of [example_entries], and a table
    that also reads them back. *)
Definition example_split_records : list JSON :=
  match SplitResults.split_from example_loads (fun _ => example_timestamp)
          (JStr "batches/1") (JStr "completed") (JObj []) 0 example_entries
  with
  | Ok records => records
  | Raise _ => []
  end.

Definition example_split_loads : string -> option JSON :=
  table_loads
    (example_table ++ map (fun v => (example_dumps v, v)) example_split_records).

(** A job result whose second entry is not a dict. *)
Definition example_bad_task_result : JSON :=
  JObj [ ("task_id", JStr "batches/2");
         ("status", JStr "completed");
         ("results", JArr [example_entry "r_0" "first document"; JInt 5]) ].

Definition example_bad_loads : string -> option JSON :=
  table_loads
    [ ("{}", JObj []);
      (example_dumps example_bad_task_result, example_bad_task_result) ].

(** The parsed files of [example_paths] with the example readers, parsed
    files with an entry that has no content, and a table that reads
    both back. *)
Definition example_parsed_files : JSON :=
  match example_paths with
  | JArr paths =>
      JArr (map (FileParsing.parse_file example_exn_str example_open_read
                   (fun _ => None)
                   (fun _ => Raise (External "PyPDF2 is not installed"))
                   (fun _ => None)) paths)
  | v => v
  end.

Definition example_bad_parsed_files : JSON :=
  JArr [ JObj [("file_path", JStr "a.txt")] ].

Definition example_submit_loads : string -> option JSON :=
  table_loads
    (example_table
     ++ map (fun v => (example_dumps v, v))
          [example_parsed_files; example_bad_parsed_files]).

(** File information and validated results of the single-document
    pipeline, and a table that reads them. *)
Definition example_failed_file_info : JSON :=
  JObj [ ("task_id", JStr "task-1");
         ("file_path", JStr "a.txt");
         ("prompt", JStr "Extract the title and the content.");
         ("status", JStr "failed");
         ("error", JStr "No response received from Gemini") ].

Definition example_failed_result (task_id file_path : string) : JSON :=
  JObj [ ("task_id", JStr task_id);
         ("file_path", JStr file_path);
         ("status", JStr "failed");
         ("error", JStr "No response received from Gemini");
         ("validation_timestamp", JStr example_timestamp) ].

Definition example_sync_loads : string -> option JSON :=
  table_loads
    (("{}", JObj [])
     :: map (fun v => (example_dumps v, v))
          [ example_failed_file_info;
            example_failed_result "task-1" "a.txt";
            example_failed_result "task-2" "d.txt";
            JStr "a.txt"; JStr "b.txt"; JArr [JStr "b.txt"] ]).

Definition example_no_candidate : SyncProcessing.Response :=
  {| SyncProcessing.candidates := [];
     SyncProcessing.usage_metadata := example_usage |}.

Definition example_candidate (text : string) : SyncProcessing.Response :=
  {| SyncProcessing.candidates := [ {| Polling.parts_text := [JStr text] |} ];
     SyncProcessing.usage_metadata := example_usage |}.

End Examples.

(** * Properties *)

(** ** Loops *)

Module PyFacts.
Import Py.

(** A loop whose body cannot raise is a [map]. *)
Lemma traverse_total {A B : Type} (f : A -> result B) (g : A -> B) xs :
  (forall x, x ∈ xs -> f x = Ok (g x)) ->
  traverse f xs = Ok (map g xs).
Proof.
  induction xs as [|x xs IH]; intros Hf; [reflexivity|].
  cbn. rewrite (Hf x) by apply list_elem_of_here. cbn.
  rewrite IH; [reflexivity|].
  intros y Hy. apply Hf. now apply list_elem_of_further.
Qed.

Lemma traverse_length {A B : Type} (f : A -> result B) xs ys :
  traverse f xs = Ok ys -> length ys = length xs.
Proof.
  revert ys. induction xs as [|x xs IH]; intros ys; cbn.
  - now intros [= <-].
  - destruct (f x) as [y|e]; [|discriminate]. cbn.
    destruct (traverse f xs) as [ys'|e]; [|discriminate]. cbn.
    intros [= <-]. cbn. f_equal. now apply IH.
Qed.

(** The [k]-th result of a loop comes from the [k]-th element. *)
Lemma traverse_lookup {A B : Type} (f : A -> result B) xs ys k x :
  traverse f xs = Ok ys -> xs !! k = Some x ->
  exists y, ys !! k = Some y /\ f x = Ok y.
Proof.
  revert ys k. induction xs as [|x' xs IH]; intros ys k; cbn; [done|].
  destruct (f x') as [y'|e] eqn:Hx'; [|discriminate]. cbn.
  destruct (traverse f xs) as [ys'|e]; [|discriminate]. cbn.
  intros [= <-]. destruct k as [|k]; cbn.
  - intros [= <-]. now exists y'.
  - now apply IH.
Qed.

End PyFacts.

(** ** The poll controller *)

Module PollingSpec.
Import Py Polling.

Section Check.

Variable json_loads : string -> option JSON.
Variable json_dumps : JSON -> string.
Variable batches_get : string -> result BatchJob.
Variable files_download : string -> result string.

Let check := execute json_loads json_dumps batches_get files_download.

(** Once the batch information has parsed to a dict, [execute] is decided
    by the outcome of the status query. *)
Lemma execute_after_parse task_id batch_info info :
  json_loads batch_info = Some (JObj info) ->
  check task_id batch_info =
    let '(task_status, batch_job) :=
      _check_task_status batches_get task_id in
    if String.eqb task_status "completed" then
      match batch_job with
      | Some job =>
          r ← _get_task_results json_loads files_download task_id job;
          Ok {| task_result := json_dumps r; batch_info := batch_info |}
      | None => Raise AttributeError
      end
    else if String.eqb task_status "failed" then
      Ok {| task_result :=
              json_dumps (JObj [("error", JStr "Task failed")]);
            batch_info := batch_info |}
    else Raise (ReQueueAfterSignal 30).
Proof.
  intros Hinfo. unfold check, execute, Py.loads.
  rewrite Hinfo. reflexivity.
Qed.

Lemma check_status_ok task_id job :
  batches_get task_id = Ok job ->
  _check_task_status batches_get task_id =
    (mapping_get status_mapping (state_name job) "pending", Some job).
Proof. intros Hjob. unfold _check_task_status. now rewrite Hjob. Qed.

(** A name outside the table gets the default. *)
Lemma mapping_get_default (m : list (string * string)) k dflt :
  k ∉ m.*1 -> mapping_get m k dflt = dflt.
Proof.
  induction m as [|[k' v] m IH]; intros Hk; [reflexivity|].
  cbn in *. apply not_elem_of_cons in Hk as [Hne Hk].
  destruct (String.eqb_spec k' k) as [->|_]; [contradiction|].
  now apply IH.
Qed.

(** C1.  The six service codes map to the internal states as
    pending→pending, running→processing, succeeded→completed,
    failed→failed, cancelling→processing, cancelled→failed; and whenever
    the mapped state of a check is pending or processing, the check
    returns no result: it raises the requeue signal with a delay of 30
    seconds. *)
Theorem check_maps_status_and_requeues task_id batch_info info job :
  json_loads batch_info = Some (JObj info) ->
  batches_get task_id = Ok job ->
  exists mapped,
    _check_task_status batches_get task_id = (mapped, Some job) /\
    (state_name job = "JOB_STATE_PENDING" -> mapped = "pending") /\
    (state_name job = "JOB_STATE_RUNNING" -> mapped = "processing") /\
    (state_name job = "JOB_STATE_SUCCEEDED" -> mapped = "completed") /\
    (state_name job = "JOB_STATE_FAILED" -> mapped = "failed") /\
    (state_name job = "JOB_STATE_CANCELLING" -> mapped = "processing") /\
    (state_name job = "JOB_STATE_CANCELLED" -> mapped = "failed") /\
    (mapped = "pending" \/ mapped = "processing" ->
     check task_id batch_info = Raise (ReQueueAfterSignal 30)).
Proof.
  intros Hinfo Hjob.
  exists (mapping_get status_mapping (state_name job) "pending").
  split; [now apply check_status_ok|].
  repeat split; try (intros ->; reflexivity).
  intros Hmapped.
  rewrite (execute_after_parse _ _ _ Hinfo), (check_status_ok _ _ Hjob).
  destruct Hmapped as [-> | ->]; reflexivity.
Qed.

(** C10.  A status name outside the six mapped codes is mapped to
    pending, and the check that observes it returns no result: it raises
    the requeue signal with a delay of 30 seconds. *)
Theorem unrecognized_status_requeues task_id batch_info info job :
  json_loads batch_info = Some (JObj info) ->
  batches_get task_id = Ok job ->
  state_name job ∉
    [ "JOB_STATE_PENDING"; "JOB_STATE_RUNNING"; "JOB_STATE_SUCCEEDED";
      "JOB_STATE_FAILED"; "JOB_STATE_CANCELLING"; "JOB_STATE_CANCELLED" ] ->
  _check_task_status batches_get task_id = ("pending", Some job) /\
  check task_id batch_info = Raise (ReQueueAfterSignal 30).
Proof.
  intros Hinfo Hjob Hname.
  assert (Hmap : mapping_get status_mapping (state_name job) "pending"
                 = "pending") by now apply mapping_get_default.
  rewrite (execute_after_parse _ _ _ Hinfo), (check_status_ok _ _ Hjob), Hmap.
  split; reflexivity.
Qed.



End Check.

Lemma check_maps_status_and_requeues_witness :
  exists mapped,
    _check_task_status (fun _ => Ok (Examples.example_job "JOB_STATE_RUNNING"))
      "batches/1" = (mapped, Some (Examples.example_job "JOB_STATE_RUNNING")) /\
    mapped = "processing" /\
    execute Examples.example_loads Examples.example_dumps
      (fun _ => Ok (Examples.example_job "JOB_STATE_RUNNING"))
      (fun _ => Raise (External "no file")) "batches/1" "{}"
    = Raise (ReQueueAfterSignal 30).
Proof.
  destruct (check_maps_status_and_requeues
              Examples.example_loads Examples.example_dumps
              (fun _ => Ok (Examples.example_job "JOB_STATE_RUNNING"))
              (fun _ => Raise (External "no file"))
              "batches/1" "{}" [] (Examples.example_job "JOB_STATE_RUNNING")
              eq_refl eq_refl)
    as (mapped & Hcheck & _ & Hrunning & _ & _ & _ & _ & Hrequeue).
  exists mapped.
  split; [exact Hcheck|].
  split; [exact (Hrunning eq_refl)|].
  apply Hrequeue. right. exact (Hrunning eq_refl).
Defined.

Lemma unrecognized_status_requeues_witness :
  _check_task_status
    (fun _ => Ok (Examples.example_job "JOB_STATE_PAUSED")) "batches/1"
  = ("pending", Some (Examples.example_job "JOB_STATE_PAUSED")) /\
  execute Examples.example_loads Examples.example_dumps
    (fun _ => Ok (Examples.example_job "JOB_STATE_PAUSED"))
    (fun _ => Raise (External "no file")) "batches/1" "{}"
  = Raise (ReQueueAfterSignal 30).
Proof.
  apply (unrecognized_status_requeues
           Examples.example_loads Examples.example_dumps
           (fun _ => Ok (Examples.example_job "JOB_STATE_PAUSED"))
           (fun _ => Raise (External "no file"))
           "batches/1" "{}" [] (Examples.example_job "JOB_STATE_PAUSED")
           eq_refl eq_refl).
  cbn. intros Hin.
  repeat (apply elem_of_cons in Hin as [Heq | Hin]; [discriminate Heq|]).
  now apply elem_of_nil in Hin.
Defined.


End PollingSpec.

(** ** The chunk planner *)

Module ChunkingSpec.
Import Py PyFacts Chunking.

(** A slice that starts inside the list (or at its end) and runs forward
    takes [k] elements after dropping [i]. *)
Lemma slice_take_drop {A : Type} (l : list A) (i k : nat) :
  slice l (Z.of_nat i) (Z.of_nat i + Z.of_nat k) = take k (drop i l).
Proof.
  unfold slice, slice_bound.
  destruct (Z.ltb_spec (Z.of_nat i) 0) as [?|_]; [lia|].
  destruct (Z.ltb_spec (Z.of_nat i + Z.of_nat k) 0) as [?|_]; [lia|].
  destruct (decide (i <= length l)%nat) as [Hi|Hi].
  - rewrite (Z.min_l (Z.of_nat i)) by lia. rewrite Nat2Z.id.
    destruct (decide (i + k <= length l)%nat) as [Hk|Hk].
    + rewrite Z.min_l by lia. f_equal. lia.
    + rewrite Z.min_r by lia.
      rewrite !take_ge; [reflexivity| |]; rewrite length_drop; lia.
  - rewrite (Z.min_r (Z.of_nat i)), Z.min_r by lia.
    replace (Z.to_nat (Z.of_nat (length l) - Z.of_nat (length l))) with 0%nat
      by lia.
    rewrite (drop_ge l i) by lia. now rewrite take_nil.
Qed.

(** The [j]-th chunk of [l] for the chunk size [s]. *)
Lemma chunks_concat {A : Type} (l : list A) (s c : nat) :
  concat (map (fun j => take s (drop (j * s) l)) (seq 0 c)) = take (c * s) l.
Proof.
  induction c as [|c IH]; [reflexivity|].
  rewrite seq_S, map_app, concat_app, IH. cbn [map concat plus].
  rewrite app_nil_r, take_take_drop.
  f_equal. lia.
Qed.

(** The number of rounds of [range(0, n, s)] is the ceiling of [n / s]. *)
Lemma range_len_ceil (n s : Z) :
  0 <= n -> 1 <= s ->
  range_len 0 n s = (n + s - 1) / s /\
  s * (range_len 0 n s - 1) < n <= s * range_len 0 n s.
Proof.
  intros Hn Hs. unfold range_len.
  destruct (Z.ltb_spec 0 s) as [_|?]; [|lia].
  destruct (Z.ltb_spec 0 n) as [Hpos|Hzero].
  - replace (n + s - 1) with (n - 0 - 1 + 1 * s) by lia.
    rewrite Z.div_add by lia.
    pose proof (Z.div_mod (n - 0 - 1) s ltac:(lia)) as Hdiv.
    pose proof (Z.mod_pos_bound (n - 0 - 1) s ltac:(lia)) as Hmod.
    split; [reflexivity|]. lia.
  - assert (n = 0) as -> by lia.
    rewrite Z.div_small by lia. lia.
Qed.

Section Plan.

Variable json_loads : string -> option JSON.
Variable json_dumps : JSON -> string.

Let plan := execute json_loads json_dumps.

(** C3.  With a chunk size of at least 1 and an input that parses to a
    list of N paths, the planner returns ceil(N / chunk_size) chunks;
    their concatenation, in order, is the input list; no chunk has more
    than chunk_size elements and every chunk but the last has exactly
    chunk_size. *)
Theorem plan_partitions_paths file_paths chunk_size paths size :
  json_loads file_paths = Some (JArr paths) ->
  int chunk_size = Ok size ->
  1 <= size ->
  exists chunks : list (list JSON),
    plan file_paths chunk_size =
      Ok (map (fun c => {| chunk := json_dumps (JArr c) |}) chunks) /\
    Z.of_nat (length chunks) = (Z.of_nat (length paths) + size - 1) / size /\
    size * (Z.of_nat (length chunks) - 1) < Z.of_nat (length paths)
      <= size * Z.of_nat (length chunks) /\
    concat chunks = paths /\
    Forall (fun c => Z.of_nat (length c) <= size) chunks /\
    (forall i c,
       chunks !! i = Some c -> (S i < length chunks)%nat ->
       Z.of_nat (length c) = size).
Proof.
  intros Hpaths Hsize Hpos.
  set (n := length paths).
  set (s := Z.to_nat size).
  assert (Hs : size = Z.of_nat s) by lia.
  destruct (range_len_ceil (Z.of_nat n) size ltac:(lia) Hpos)
    as [Hceil Hbounds].
  set (count := Z.to_nat (range_len 0 (Z.of_nat n) size)).
  assert (Hcount : Z.of_nat count = range_len 0 (Z.of_nat n) size) by lia.
  exists (map (fun j => take s (drop (j * s) paths)) (seq 0 count)).
  assert (Hlen : length (map (fun j => take s (drop (j * s) paths))
                             (seq 0 count)) = count)
    by now rewrite length_map, length_seq.
  split; [|split; [|split; [|split; [|split]]]].
  - unfold plan, execute, Py.loads, create_chunks.
    rewrite Hpaths, Hsize. cbn [mbind result_bind py_len]. unfold range.
    destruct (Z.eqb_spec size 0) as [?|_]; [lia|]. cbn [mbind result_bind].
    fold n count.
    rewrite (traverse_total _
               (fun i => JArr (slice paths i (i + size)))) by reflexivity.
    cbn [mbind result_bind]. f_equal.
    rewrite !map_map. apply map_ext_in. intros j _.
    cbn. do 2 f_equal.
    replace (Z.of_nat j * size) with (Z.of_nat (j * s)) by lia.
    rewrite Hs, Z.add_0_l. f_equal. apply slice_take_drop.
  - rewrite Hlen. lia.
  - rewrite Hlen. lia.
  - rewrite chunks_concat. apply take_ge. fold n. nia.
  - apply Forall_forall. intros c Hc.
    apply list_elem_of_fmap in Hc as (j & -> & _).
    rewrite length_take. lia.
  - intros i c Hi Hlast. rewrite Hlen in Hlast.
    rewrite list_lookup_fmap in Hi.
    rewrite lookup_seq_lt in Hi by lia. cbn in Hi.
    injection Hi as <-.
    rewrite length_take, length_drop. fold n. nia.
Qed.

(** C4, as the code has it.  A chunk size of 0 fails with the
    [ValueError] of [range]; a negative chunk size does not fail: the
    range is empty and the planner returns no chunk. *)
Theorem plan_nonpositive_chunk_size file_paths chunk_size paths size :
  json_loads file_paths = Some (JArr paths) ->
  int chunk_size = Ok size ->
  size < 1 ->
  (size = 0 -> plan file_paths chunk_size = Raise ValueError) /\
  (size < 0 -> plan file_paths chunk_size = Ok []).
Proof.
  intros Hpaths Hsize Hlt.
  unfold plan, execute, Py.loads, create_chunks.
  rewrite Hpaths, Hsize. cbn [mbind result_bind py_len]. unfold range.
  split.
  - intros ->. reflexivity.
  - intros Hneg.
    destruct (Z.eqb_spec size 0) as [?|_]; [lia|].
    unfold range_len.
    destruct (Z.ltb_spec 0 size) as [?|_]; [lia|].
    destruct (Z.ltb_spec (Z.of_nat (length paths)) 0) as [?|_]; [lia|].
    reflexivity.
Qed.

End Plan.

(** Twelve paths with a chunk size of 5 give chunks of 5, 5 and 2. *)
Example plan_twelve_paths :
  execute Examples.example_loads Examples.example_dumps
    (Examples.example_dumps Examples.example_paths) "5" =
  Ok (map (fun c => {| chunk := Examples.example_dumps (JArr (map JStr c)) |})
       [ ["a.txt"; "b.txt"; "c.pdf"; "d.txt"; "e.docx"];
         ["f.txt"; "g.txt"; "h.txt"; "i.txt"; "j.txt"];
         ["k.txt"; "l.txt"] ]).
Proof. vm_compute. reflexivity. Qed.

Lemma plan_partitions_paths_witness :
  exists chunks : list (list JSON),
    execute Examples.example_loads Examples.example_dumps
      (Examples.example_dumps Examples.example_paths) " 5 " =
      Ok (map (fun c => {| chunk := Examples.example_dumps (JArr c) |})
              chunks) /\
    Z.of_nat (length chunks) = 3 /\
    concat chunks = map JStr
      [ "a.txt"; "b.txt"; "c.pdf"; "d.txt"; "e.docx"; "f.txt";
        "g.txt"; "h.txt"; "i.txt"; "j.txt"; "k.txt"; "l.txt" ].
Proof.
  destruct (plan_partitions_paths
              Examples.example_loads Examples.example_dumps
              (Examples.example_dumps Examples.example_paths) " 5 "
              (map JStr
                 [ "a.txt"; "b.txt"; "c.pdf"; "d.txt"; "e.docx"; "f.txt";
                   "g.txt"; "h.txt"; "i.txt"; "j.txt"; "k.txt"; "l.txt" ])
              5 eq_refl eq_refl ltac:(lia))
    as (chunks & Hplan & Hcount & _ & Hconcat & _).
  exists chunks. split; [exact Hplan|]. split; [|exact Hconcat].
  rewrite Hcount. reflexivity.
Defined.

(** C4, as stated, fails: with the chunk size -1 the planner returns an
    empty sequence of chunks and raises nothing. *)
Lemma negative_chunk_size_returns_no_chunks :
  execute Examples.example_loads Examples.example_dumps
    (Examples.example_dumps Examples.example_paths) "-1" = Ok [] /\
  forall e,
    execute Examples.example_loads Examples.example_dumps
      (Examples.example_dumps Examples.example_paths) "-1" <> Raise e.
Proof. split; [vm_compute; reflexivity | intros e; vm_compute; discriminate]. Qed.

Lemma plan_nonpositive_chunk_size_witness :
  execute Examples.example_loads Examples.example_dumps
    (Examples.example_dumps Examples.example_paths) "0" = Raise ValueError.
Proof.
  apply (proj1 (plan_nonpositive_chunk_size
                  Examples.example_loads Examples.example_dumps
                  (Examples.example_dumps Examples.example_paths) "0"
                  (map JStr
                     [ "a.txt"; "b.txt"; "c.pdf"; "d.txt"; "e.docx"; "f.txt";
                       "g.txt"; "h.txt"; "i.txt"; "j.txt"; "k.txt"; "l.txt" ])
                  0 eq_refl eq_refl ltac:(lia)) eq_refl).
Defined.

End ChunkingSpec.

(** ** The validator *)

Module ValidationSpec.
Import Py Validation.

(** What a record that passes the schema check contains. *)
Lemma conforms_schema_inv d :
  conforms schema (JObj d) = true ->
  exists task_id status file_path e title content,
    dict_get d "task_id" = Some (JStr task_id) /\
    dict_get d "status" = Some (JStr status) /\
    dict_get d "file_path" = Some (JStr file_path) /\
    dict_get d "extracted_data" = Some (JObj e) /\
    dict_get e "title" = Some (JStr title) /\
    dict_get e "content" = Some (JStr content).
Proof.
  intros H. cbn in H. unfold has_key in H.
  rewrite !andb_true_iff in H. destruct_and!.
  destruct (dict_get d "task_id") as [[| | | |task_id| |]|];
    cbn in *; try congruence.
  destruct (dict_get d "status") as [[| | | |status| |]|];
    cbn in *; try congruence.
  destruct (dict_get d "file_path") as [[| | | |file_path| |]|];
    cbn in *; try congruence.
  destruct (dict_get d "extracted_data") as [[| | | | | |e]|];
    cbn in *; try congruence.
  rewrite !andb_true_iff in *. destruct_and!.
  destruct (dict_get e "title") as [[| | | |title| |]|] eqn:Htitle;
    cbn in *; try congruence.
  destruct (dict_get e "content") as [[| | | |content| |]|] eqn:Hcontent;
    cbn in *; try congruence.
  exists task_id, status, file_path, e, title, content.
  repeat split; assumption || reflexivity.
Qed.



(** The heuristic checks on extracted data with a string title and a
    string content. *)
Lemma heuristic_status_strings e title content :
  dict_get e "title" = Some (JStr title) ->
  dict_get e "content" = Some (JStr content) ->
  heuristic_status (JObj e) =
    Ok (if len (strip content) <? 10 then "partial"
        else if negb (string_truthy title) || negb (string_truthy content)
             then "partial" else "valid").
Proof.
  intros Htitle Hcontent. unfold heuristic_status. cbn.
  now rewrite Htitle, Hcontent.
Qed.

Section Validate.

Variable json_loads : string -> option JSON.
Variable json_dumps : JSON -> string.
Variable error_message : JSON -> string.
Variable timestamp : string.

Let validate := execute json_loads json_dumps error_message timestamp.

(** [execute] on an individual result that parses to a dict. *)
Lemma execute_object individual_result batch_info d info :
  json_loads individual_result = Some (JObj d) ->
  json_loads batch_info = Some info ->
  validate individual_result batch_info =
    if conforms schema (JObj d) then
      let extracted_data := default (JObj []) (dict_get d "extracted_data") in
      validation_status ← heuristic_status extracted_data;
      Ok {| validated_data := json_dumps (JObj
              [ ("task_id", default JNull (dict_get d "task_id"));
                ("status", default JNull (dict_get d "status"));
                ("result_index", default JNull (dict_get d "result_index"));
                ("file_path", default (JStr EmptyString)
                                (dict_get d "file_path"));
                ("extracted_data", extracted_data);
                ("validation_timestamp", JStr timestamp);
                ("validation_status", JStr validation_status);
                ("batch_info", info) ]);
            validation_status := validation_status |}
    else
      Ok {| validated_data := json_dumps (JObj
              [ ("task_id", default (JStr "unknown") (dict_get d "task_id"));
                ("status", JStr "validation_failed");
                ("result_index",
                 default (JInt (-1)) (dict_get d "result_index"));
                ("file_path",
                 default (JStr "unknown") (dict_get d "file_path"));
                ("error", JStr (error_message (JObj d)));
                ("validation_timestamp", JStr timestamp);
                ("validation_status", JStr "invalid");
                ("batch_info", info) ]);
            validation_status := "invalid" |}.
Proof.
  intros Hresult Hinfo. unfold validate, execute, Py.loads.
  rewrite Hresult, Hinfo. cbn [mbind result_bind get].
  destruct (conforms schema (JObj d)); reflexivity.
Qed.


End Validate.


(** A record with a title and a long enough content is valid. *)
Example validate_example_valid :
  execute Examples.example_loads Examples.example_dumps
    Examples.example_error_message Examples.example_timestamp
    (Examples.example_dumps
       (Examples.example_record "Quarterly report"
          "Revenue grew by ten percent.")) "{}"
  = Ok {| validated_data :=
            Examples.example_dumps
              (Examples.example_validated "Quarterly report"
                 "Revenue grew by ten percent." "valid");
          validation_status := "valid" |}.
Proof. vm_compute. reflexivity. Qed.

(** The empty title with the content ["hello"] is partial. *)
Example validate_example_missing_title :
  execute Examples.example_loads Examples.example_dumps
    Examples.example_error_message Examples.example_timestamp
    (Examples.example_dumps (Examples.example_record EmptyString "hello"))
    "{}"
  = Ok {| validated_data :=
            Examples.example_dumps
              (Examples.example_validated EmptyString "hello" "partial");
          validation_status := "partial" |}.
Proof. vm_compute. reflexivity. Qed.





End ValidationSpec.

(** ** The failure router *)

Module FailureHandlingSpec.
Import Py FailureHandling.


Section Route.

Variable json_loads : string -> option JSON.
Variable repr : JSON -> string.
Variable now_compact : string.
Variable now_iso : string.

Let route := execute json_loads repr now_compact now_iso.



End Route.


(** The record the validator returns for the empty title with the
    content ["hello"] is routed with the reason missing_title. *)
Example route_example_missing_title :
  exists fs,
    execute Examples.example_loads (fun _ => "?") "20250101_000000"
      Examples.example_timestamp "partial" "{}"
      (Examples.example_dumps
         (Examples.example_validated EmptyString "hello" "partial"))
      Examples.empty_fs
    = (Ok {| failure_csv_path :=
               "failures/failures_batches/1_20250101_000000.csv";
             retry_count := "1" |}, fs) /\
    files fs !! "failures/failures_batches/1_20250101_000000.csv" =
      Some [ [JStr "file_path"; JStr "failure_reason"; JStr "task_id";
              JStr "timestamp"];
             [JStr "a_1"; JStr "missing_title"; JStr "batches/1";
              JStr Examples.example_timestamp] ].
Proof.
  eexists. split; [vm_compute; reflexivity|]. vm_compute. reflexivity.
Qed.

(** The record with the title ["x"] and the content ["short"] is routed
    with the reason content_too_short. *)
Example route_example_content_too_short :
  exists fs,
    execute Examples.example_loads (fun _ => "?") "20250101_000000"
      Examples.example_timestamp "partial" "{}"
      (Examples.example_dumps
         (Examples.example_validated "x" "short" "partial"))
      Examples.empty_fs
    = (Ok {| failure_csv_path :=
               "failures/failures_batches/1_20250101_000000.csv";
             retry_count := "1" |}, fs) /\
    files fs !! "failures/failures_batches/1_20250101_000000.csv" =
      Some [ [JStr "file_path"; JStr "failure_reason"; JStr "task_id";
              JStr "timestamp"];
             [JStr "a_1"; JStr "content_too_short"; JStr "batches/1";
              JStr Examples.example_timestamp] ].
Proof.
  eexists. split; [vm_compute; reflexivity|]. vm_compute. reflexivity.
Qed.

End FailureHandlingSpec.

(** ** The result splitter *)

Module SplitResultsSpec.
Import Py SplitResults.

Section Split.

Variable json_loads : string -> option JSON.
Variable json_dumps : JSON -> string.
Variable timestamp : nat -> string.

Let split := execute json_loads json_dumps timestamp.


Lemma split_one_not_splittable task_id status info i entry :
  splittable entry = false ->
  exists e, split_one json_loads timestamp task_id status info i entry = Raise e.
Proof.
  destruct entry as [| | | | | |d]; try (intros _; eexists; reflexivity).
  unfold splittable, split_one. cbn [get mbind result_bind].
  intros Hbad.
  destruct (dict_get d "content") as [content|]; cbn [default from_option id] in *.
  - destruct (truthy content) eqn:Htruthy.
    + destruct content; try (eexists; reflexivity); cbn in Htruthy;
        try discriminate Htruthy.
      destruct (dict_get d "response_id") as [rid|];
        cbn [default from_option id] in *; [|discriminate Hbad].
      destruct (json_loads s);
        destruct rid; try discriminate Hbad; eexists; reflexivity.
    + destruct (dict_get d "response_id") as [rid|];
        cbn [default from_option id] in *.
      * destruct content; cbn in Htruthy, Hbad;
          destruct rid; try discriminate Hbad; eexists; reflexivity.
      * destruct content; discriminate Hbad.
  - destruct (dict_get d "response_id") as [rid|];
      cbn [default from_option id] in *; [|discriminate Hbad].
    destruct rid; try discriminate Hbad; eexists; reflexivity.
Qed.



End Split.


(** A job result without results is split into nothing. *)
Example split_example_no_results :
  execute Examples.example_loads Examples.example_dumps
    (fun _ => Examples.example_timestamp) "{}" "{}" = Ok [].
Proof. reflexivity. Qed.

End SplitResultsSpec.

(** ** Content extraction and the requests of a batch *)

Module FileParsingSpec.
Import Py PyFacts FileParsing.

Section Parse.

Variable json_loads : string -> option JSON.
Variable json_dumps : JSON -> string.
Variable uuid4 : string.
Variable exn_str : exn -> string.
Variable open_read : string -> result string.
Variable pdfplumber_text : string -> option (result string).
Variable pypdf2_text : string -> result string.
Variable docx_text : string -> option (result string).
Variable repr : JSON -> string.

Let read := _read_file_content open_read pdfplumber_text pypdf2_text docx_text.
Let parse :=
  execute json_loads json_dumps uuid4 exn_str
    open_read pdfplumber_text pypdf2_text docx_text.

(** The text a request carries for a document. *)
Let request_text (prompt content : string) : string :=
  prompt +:+ BatchRequest.newline +:+ BatchRequest.newline
  +:+ "Document content:" +:+ BatchRequest.newline +:+ content.

(** What the loop over the paths makes of one path: the text read, or
    the marker with the message of the exception. *)
Let entry_content (path : JSON) : string :=
  match read path with
  | Ok content => content
  | Raise e => "[ERROR: Failed to read file - " +:+ exn_str e +:+ "]"
  end.

Lemma inline_request_parse_file prompt path :
  BatchRequest.inline_request repr prompt
    (parse_file exn_str open_read pdfplumber_text pypdf2_text docx_text path)
  = Ok (JObj
      [ ("contents", JArr
          [ JObj
              [ ("parts", JArr
                  [ JObj [("text", JStr (request_text prompt
                                           (entry_content path)))] ]);
                ("role", JStr "user") ] ]) ]).
Proof.
  unfold parse_file, entry_content, read.
  destruct (_read_file_content _ _ _ _ path); reflexivity.
Qed.

(** C9.  For a chunk that parses to a list of paths, the node returns
    one entry per path, in order: the entry of a path whose content was
    read carries that content, the entry of a path whose reading raised
    carries the marker text and the error, and no path makes the node
    raise.  The requests built from these entries are one per path, the
    k-th carrying the content or the marker of the k-th path. *)
Theorem parse_continues_after_failure chunk paths prompt :
  json_loads chunk = Some (JArr paths) ->
  exists entries requests,
    parse chunk =
      Ok {| parsed_files := json_dumps (JArr entries); task_id := uuid4 |} /\
    BatchRequest.inline_requests repr prompt (JArr entries) = Ok requests /\
    length entries = length paths /\
    length requests = length paths /\
    forall k path,
      paths !! k = Some path ->
      exists entry text,
        entries !! k = Some entry /\
        requests !! k = Some (JObj
          [ ("contents", JArr
              [ JObj
                  [ ("parts", JArr
                      [ JObj [("text", JStr (request_text prompt text))] ]);
                    ("role", JStr "user") ] ]) ]) /\
        (forall content,
           read path = Ok content ->
           text = content /\
           entry = JObj [ ("file_path", path); ("content", JStr content) ]) /\
        (forall e,
           read path = Raise e ->
           text = "[ERROR: Failed to read file - " +:+ exn_str e +:+ "]" /\
           entry = JObj [ ("file_path", path);
                          ("content", JStr text);
                          ("error", JStr (exn_str e)) ]).
Proof.
  intros Hchunk.
  set (entry_of := parse_file exn_str open_read pdfplumber_text pypdf2_text
                     docx_text).
  set (request_of := fun entry : JSON =>
         JObj
           [ ("contents", JArr
               [ JObj
                   [ ("parts", JArr
                       [ JObj [("text",
                           JStr (request_text prompt
                                   (match entry with
                                    | JObj (_ :: (_, JStr c) :: _) => c
                                    | _ => EmptyString
                                    end)))] ]);
                     ("role", JStr "user") ] ]) ]).
  exists (map entry_of paths), (map request_of (map entry_of paths)).
  split; [|split; [|split; [|split]]].
  - unfold parse, execute, Py.loads. rewrite Hchunk. reflexivity.
  - unfold BatchRequest.inline_requests. cbn [iterate mbind result_bind].
    apply traverse_total. intros entry (path & -> & _)%list_elem_of_fmap.
    unfold entry_of. rewrite inline_request_parse_file.
    unfold request_of, entry_content, read, parse_file.
    destruct (_read_file_content _ _ _ _ path); reflexivity.
  - now rewrite length_map.
  - now rewrite !length_map.
  - intros k path Hk.
    exists (entry_of path), (entry_content path).
    rewrite !list_lookup_fmap, Hk. cbn [fmap option_fmap option_map].
    split; [reflexivity|]. split.
    + unfold request_of, entry_of, entry_content, read, parse_file.
      destruct (_read_file_content _ _ _ _ path); reflexivity.
    + unfold entry_of, entry_content, parse_file, read.
      split.
      * intros content ->. now split.
      * intros e ->. now split.
Qed.

End Parse.

Lemma parse_continues_after_failure_witness :
  exists entries,
    execute Examples.example_loads Examples.example_dumps "task-1"
      Examples.example_exn_str Examples.example_open_read
      (fun _ => None) (fun _ => Raise (External "PyPDF2 is not installed"))
      (fun _ => None)
      (Examples.example_dumps Examples.example_paths)
    = Ok {| parsed_files := Examples.example_dumps (JArr entries);
            task_id := "task-1" |} /\
    length entries = 12%nat /\
    entries !! 0%nat =
      Some (JObj [ ("file_path", JStr "a.txt");
                   ("content", JStr "text of a.txt") ]) /\
    entries !! 1%nat =
      Some (JObj [ ("file_path", JStr "b.txt");
                   ("content",
                    JStr "[ERROR: Failed to read file - No such file: b.txt]");
                   ("error", JStr "No such file: b.txt") ]).
Proof.
  destruct (parse_continues_after_failure
              Examples.example_loads Examples.example_dumps "task-1"
              Examples.example_exn_str Examples.example_open_read
              (fun _ => None)
              (fun _ => Raise (External "PyPDF2 is not installed"))
              (fun _ => None) (fun _ => "?")
              (Examples.example_dumps Examples.example_paths)
              (map JStr
                 [ "a.txt"; "b.txt"; "c.pdf"; "d.txt"; "e.docx"; "f.txt";
                   "g.txt"; "h.txt"; "i.txt"; "j.txt"; "k.txt"; "l.txt" ])
              "Extract the title and the content." eq_refl)
    as (entries & requests & Hparse & _ & Hlen & _ & Heach).
  exists entries. split; [exact Hparse|]. split; [exact Hlen|]. split.
  - destruct (Heach 0%nat (JStr "a.txt") eq_refl)
      as (entry & text & Hentry & _ & Hread & _).
    destruct (Hread "text of a.txt" eq_refl) as [_ ->]. exact Hentry.
  - destruct (Heach 1%nat (JStr "b.txt") eq_refl)
      as (entry & text & Hentry & _ & _ & Hfail).
    destruct (Hfail (External "No such file: b.txt") eq_refl) as [-> ->].
    exact Hentry.
Defined.

End FileParsingSpec.

(** * Further properties of the nodes *)

(** ** Loops that raise *)

Module LoopFacts.
Import Py.

(** A loop whose body raises nothing but [e], and raises it on some
    element, raises [e]. *)
Lemma traverse_raise {A B : Type} (f : A -> result B) (e : exn) xs :
  (forall x e', x ∈ xs -> f x = Raise e' -> e' = e) ->
  (exists x, x ∈ xs /\ f x = Raise e) ->
  traverse f xs = Raise e.
Proof.
  induction xs as [|x xs IH]; intros Honly (bad & Hbad & Hraise).
  - now apply elem_of_nil in Hbad.
  - cbn. destruct (f x) as [y|e'] eqn:Hx; cbn.
    + rewrite IH; [reflexivity| |].
      * intros x' e' Hx'. apply Honly. now apply list_elem_of_further.
      * apply elem_of_cons in Hbad as [-> | Hbad]; [congruence|].
        now exists bad.
    + f_equal. apply (Honly x e'); [apply list_elem_of_here | exact Hx].
Qed.

(** A loop whose body returns on every element returns. *)
Lemma traverse_returns {A B : Type} (f : A -> result B) xs :
  (forall x, x ∈ xs -> exists y, f x = Ok y) ->
  exists ys, traverse f xs = Ok ys.
Proof.
  induction xs as [|x xs IH]; intros Hok; [now exists []|].
  destruct (Hok x (list_elem_of_here _ _)) as [y Hy].
  destruct IH as [ys Hys].
  { intros x' Hx'. apply Hok. now apply list_elem_of_further. }
  exists (y :: ys). cbn. now rewrite Hy, Hys.
Qed.

(** A loop that returns has run its body on every element. *)
Lemma traverse_ok_inv {A B : Type} (f : A -> result B) xs ys :
  traverse f xs = Ok ys ->
  forall x, x ∈ xs -> exists y, f x = Ok y.
Proof.
  revert ys. induction xs as [|x xs IH]; intros ys Hret x' Hx'.
  - now apply elem_of_nil in Hx'.
  - cbn in Hret. destruct (f x) as [y|e] eqn:Hx; [|discriminate].
    cbn in Hret. destruct (traverse f xs) as [ys'|e]; [|discriminate].
    apply elem_of_cons in Hx' as [-> | Hx']; [now exists y|].
    now apply (IH ys').
Qed.

(** A loop raises when its body raises on some element. *)
Lemma traverse_raises_some {A B : Type} (f : A -> result B) xs :
  (exists x e, x ∈ xs /\ f x = Raise e) ->
  exists e, traverse f xs = Raise e.
Proof.
  induction xs as [|x xs IH]; intros (bad & e & Hbad & Hraise).
  - now apply elem_of_nil in Hbad.
  - cbn. destruct (f x) as [y|e'] eqn:Hx; [|now exists e'].
    cbn. apply elem_of_cons in Hbad as [-> | Hbad]; [congruence|].
    destruct IH as [e'' He'']; [now exists bad, e|].
    rewrite He''. now exists e''.
Qed.

End LoopFacts.

(** ** The poll controller: results and errors *)

Module PollingExtra.
Import Py PyFacts LoopFacts Polling.

(** [mapping.get] returns a value of the table or the default. *)
Lemma mapping_get_range (m : list (string * string)) k dflt :
  mapping_get m k dflt ∈ dflt :: m.*2.
Proof.
  induction m as [|[k' v] m IH]; cbn.
  - apply list_elem_of_here.
  - destruct (String.eqb k' k).
    + apply list_elem_of_further, list_elem_of_here.
    + apply elem_of_cons in IH as [-> | IH].
      * apply list_elem_of_here.
      * now do 2 apply list_elem_of_further.
Qed.

(** X1.  Whatever the service answers, and also when the query raises,
    the status the check works with is one of pending, processing,
    completed and failed. *)
Theorem mapped_status_is_internal_state
    (batches_get : string -> result BatchJob) task_id :
  (_check_task_status batches_get task_id).1 ∈
    [ "pending"; "processing"; "completed"; "failed" ].
Proof.
  unfold _check_task_status.
  destruct (batches_get task_id) as [job|e]; cbn [fst].
  - pose proof (mapping_get_range status_mapping (state_name job) "pending")
      as Hrange.
    cbn in Hrange. rewrite !elem_of_cons, elem_of_nil in *. tauto.
  - rewrite !elem_of_cons. tauto.
Qed.

Section Check.

Variable json_loads : string -> option JSON.
Variable json_dumps : JSON -> string.
Variable batches_get : string -> result BatchJob.
Variable files_download : string -> result string.

Let check := execute json_loads json_dumps batches_get files_download.

(** X2.  Every output of a check carries the batch information it was
    given, unchanged, and comes from a check that saw the completed or
    the failed state. *)
Theorem check_passes_batch_info_through task_id batch_info out :
  check task_id batch_info = Ok out ->
  Polling.batch_info out = batch_info /\
  ((_check_task_status batches_get task_id).1 = "completed" \/
   (_check_task_status batches_get task_id).1 = "failed").
Proof.
  unfold check, execute.
  destruct (Py.loads json_loads batch_info) as [info|e]; [|discriminate].
  cbn [mbind result_bind].
  destruct (get info "file_count" (JInt 0)) as [count|e]; [|discriminate].
  cbn [mbind result_bind].
  destruct (_check_task_status batches_get task_id) as [status job].
  cbn [fst].
  destruct (String.eqb_spec status "completed") as [->|_].
  - destruct job as [job|]; [|discriminate].
    destruct (_get_task_results _ _ _ _) as [r|e]; [|discriminate].
    cbn. intros [= <-]. now split; [|left].
  - destruct (String.eqb_spec status "failed") as [->|_]; [|discriminate].
    intros [= <-]. now split; [|right].
Qed.

(** The body of the loop over the inlined responses raises nothing but
    [IndexError], and only for a first candidate without parts. *)
Lemma inlined_result_cases (r : Response) :
  match candidates r with
  | c :: _ =>
      match parts_text c with
      | [] => inlined_result r = Raise IndexError
      | t :: _ =>
          exists usage,
            inlined_result r =
              Ok (JObj [ ("response_id", response_id r);
                         ("model_version", model_version r);
                         ("content", t);
                         ("usage_metadata", usage) ])
      end
  | [] =>
      exists usage,
        inlined_result r =
          Ok (JObj [ ("response_id", response_id r);
                     ("model_version", model_version r);
                     ("content", JStr "No content");
                     ("usage_metadata", usage) ])
  end.
Proof.
  unfold inlined_result.
  destruct (candidates r) as [|c cs]; [eexists; reflexivity|].
  destruct (parts_text c) as [|t ts]; [reflexivity|eexists; reflexivity].
Qed.

(** X3.  From the inlined responses of a succeeded job the node makes
    one result per response, in order, with the response id of the
    response and the text of the first part of its first candidate, or
    the text No content when it has no candidate.  A first candidate
    without parts makes the whole retrieval raise [IndexError]. *)
Theorem inline_results_one_per_response task_id job d rs :
  state_name job = "JOB_STATE_SUCCEEDED" ->
  dest job = Some d ->
  inlined_responses d = Some rs ->
  (Forall (fun r => forall c, head (candidates r) = Some c ->
                              parts_text c <> []) rs ->
   exists results,
     _get_task_results json_loads files_download task_id job =
       Ok (completed task_id results) /\
     length results = length rs /\
     forall k r,
       rs !! k = Some r ->
       exists result,
         results !! k = Some result /\
         get result "response_id" JNull = Ok (response_id r) /\
         get result "content" JNull =
           Ok (match candidates r with
               | [] => JStr "No content"
               | c :: _ => default JNull (head (parts_text c))
               end)) /\
  ((exists r c, r ∈ rs /\ head (candidates r) = Some c /\
                parts_text c = []) ->
   _get_task_results json_loads files_download task_id job =
     Raise IndexError).
Proof.
  intros Hstate Hdest Hrs. unfold _get_task_results.
  rewrite Hstate, Hdest.
  change (negb (String.eqb "JOB_STATE_SUCCEEDED" "JOB_STATE_SUCCEEDED"))
    with false. cbv iota.
  destruct d as [irs fname]. cbn in Hrs. subst irs. split.
  - intros Hparts.
    assert (Hok : forall r, r ∈ rs -> exists y, inlined_result r = Ok y).
    { intros r Hr. rewrite Forall_forall in Hparts.
      specialize (Hparts r Hr). pose proof (inlined_result_cases r) as Hcase.
      destruct (candidates r) as [|c cs].
      - destruct Hcase as [usage ->]. eauto.
      - destruct (parts_text c) as [|t ts] eqn:Hc.
        + now destruct (Hparts c eq_refl).
        + destruct Hcase as [usage ->]. eauto. }
    destruct (traverse_returns inlined_result rs Hok) as [results Hresults].
    exists results.
    rewrite Hresults. split; [reflexivity|].
    split; [exact (traverse_length _ _ _ Hresults)|].
    intros k r Hk.
    destruct (traverse_lookup _ _ _ _ _ Hresults Hk) as (result & Hresult & Hr).
    exists result. split; [exact Hresult|].
    pose proof (inlined_result_cases r) as Hcase.
    destruct (candidates r) as [|c cs].
    + destruct Hcase as [usage Heq]. rewrite Heq in Hr.
      injection Hr as <-. now split.
    + destruct (parts_text c) as [|t ts].
      * rewrite Hcase in Hr. discriminate.
      * destruct Hcase as [usage Heq]. rewrite Heq in Hr.
        injection Hr as <-. now split.
  - intros (r & c & Hr & Hc & Hparts).
    rewrite (traverse_raise inlined_result IndexError); [reflexivity| |].
    + intros r' e _ Hraise. pose proof (inlined_result_cases r') as Hcase.
      destruct (candidates r') as [|c' cs'].
      * destruct Hcase as [usage Heq]. congruence.
      * destruct (parts_text c') as [|t ts]; [congruence|].
        destruct Hcase as [usage Heq]. congruence.
    + exists r. split; [exact Hr|].
      pose proof (inlined_result_cases r) as Hcase.
      destruct (candidates r) as [|c' cs']; [discriminate|].
      cbn in Hc. injection Hc as ->. now rewrite Hparts in Hcase.
Qed.


End Check.

Lemma check_passes_batch_info_through_witness :
  Polling.batch_info
    {| task_result :=
         Examples.example_dumps (JObj [("error", JStr "Task failed")]);
       batch_info := "{}" |} = "{}" /\
  ((_check_task_status
      (fun _ => Ok (Examples.example_job "JOB_STATE_CANCELLED"))
      "batches/1").1 = "completed" \/
   (_check_task_status
      (fun _ => Ok (Examples.example_job "JOB_STATE_CANCELLED"))
      "batches/1").1 = "failed").
Proof.
  exact (check_passes_batch_info_through
           Examples.example_loads Examples.example_dumps
           (fun _ => Ok (Examples.example_job "JOB_STATE_CANCELLED"))
           (fun _ => Raise (External "no file")) "batches/1" "{}"
           {| task_result :=
                Examples.example_dumps (JObj [("error", JStr "Task failed")]);
              batch_info := "{}" |}
           eq_refl).
Defined.

Lemma inline_results_one_per_response_witness :
  exists results,
    _get_task_results Examples.example_loads
      (fun _ => Raise (External "no file")) "batches/1"
      Examples.example_inline_job =
      Ok (completed "batches/1" results) /\
    length results = 2%nat.
Proof.
  assert (Hparts :
    Forall (fun r => forall c, head (candidates r) = Some c ->
                               parts_text c <> [])
      [ Examples.example_response "r_0" ["first document"];
        Examples.example_response "r_1" [] ]).
  { repeat constructor; cbn; intros c Hc;
      [injection Hc as <-|]; discriminate. }
  destruct (proj1 (inline_results_one_per_response
                     Examples.example_loads
                     (fun _ => Raise (External "no file")) "batches/1"
                     Examples.example_inline_job _ _
                     eq_refl eq_refl eq_refl) Hparts)
    as (results & Hresults & Hlen & _).
  exists results. split; [exact Hresults | exact Hlen].
Defined.


End PollingExtra.

(** ** The chunk planner: positions and sizes *)

Module ChunkingExtra.
Import Py PyFacts Chunking.

Section Plan.

Variable json_loads : string -> option JSON.
Variable json_dumps : JSON -> string.

Let plan := execute json_loads json_dumps.

(** The chunks of a list for a positive chunk size [s]: the [j]-th takes
    [s] paths after the first [j * s]. *)
Lemma execute_chunks file_paths chunk_size paths (s : nat) :
  json_loads file_paths = Some (JArr paths) ->
  int chunk_size = Ok (Z.of_nat s) ->
  (1 <= s)%nat ->
  plan file_paths chunk_size =
    Ok (map (fun c => {| chunk := json_dumps (JArr c) |})
          (map (fun j => take s (drop (j * s) paths))
             (seq 0 (Z.to_nat
                       (range_len 0 (Z.of_nat (length paths)) (Z.of_nat s)))))).
Proof.
  intros Hpaths Hsize Hpos.
  unfold plan, execute, Py.loads, create_chunks.
  rewrite Hpaths, Hsize. cbn [mbind result_bind py_len]. unfold range.
  destruct (Z.eqb_spec (Z.of_nat s) 0) as [?|_]; [lia|].
  cbn [mbind result_bind].
  rewrite (traverse_total _
             (fun i => JArr (slice paths i (i + Z.of_nat s)))) by reflexivity.
  cbn [mbind result_bind]. f_equal.
  rewrite !map_map. apply map_ext_in. intros j _. cbn. do 3 f_equal.
  replace (Z.of_nat j * Z.of_nat s) with (Z.of_nat (j * s)) by lia.
  rewrite Z.add_0_l. apply ChunkingSpec.slice_take_drop.
Qed.

(** X5.  With a chunk size of at least 1, element [i] of chunk [k] is
    the path at position [k * chunk_size + i] of the input, and no chunk
    is empty. *)
Theorem chunk_elements_by_position file_paths chunk_size paths size :
  json_loads file_paths = Some (JArr paths) ->
  int chunk_size = Ok size ->
  1 <= size ->
  exists chunks : list (list JSON),
    plan file_paths chunk_size =
      Ok (map (fun c => {| chunk := json_dumps (JArr c) |}) chunks) /\
    Forall (fun c => c <> []) chunks /\
    forall k i : nat,
      Z.of_nat i < size ->
      chunks !! k ≫= (fun c => c !! i) =
      paths !! (k * Z.to_nat size + i)%nat.
Proof.
  intros Hpaths Hsize Hpos.
  set (s := Z.to_nat size).
  assert (Hs : size = Z.of_nat s) by lia. rewrite Hs in Hsize.
  rewrite Hs. rewrite Hs in Hpos.
  destruct (ChunkingSpec.range_len_ceil (Z.of_nat (length paths))
              (Z.of_nat s) ltac:(lia) Hpos) as [_ Hbounds].
  set (count := Z.to_nat (range_len 0 (Z.of_nat (length paths)) (Z.of_nat s)))
    in *.
  exists (map (fun j => take s (drop (j * s) paths)) (seq 0 count)).
  split; [apply execute_chunks; [assumption..|lia]|]. split.
  - apply Forall_forall. intros c (j & -> & Hj)%list_elem_of_fmap.
    apply elem_of_seq in Hj. intros Hempty.
    apply (f_equal length) in Hempty.
    rewrite length_take, length_drop in Hempty. cbn in Hempty. nia.
  - intros k i Hi. rewrite list_lookup_fmap.
    destruct (decide (k < count)%nat) as [Hk|Hk].
    + rewrite lookup_seq_lt by lia. cbn.
      rewrite lookup_take_lt by lia. now rewrite lookup_drop.
    + rewrite lookup_seq_ge by lia. cbn. symmetry.
      apply lookup_ge_None. nia.
Qed.

(** X6.  A chunk size that is at least the number of paths gives one
    chunk with all the paths when there is a path, and no chunk when
    there is none. *)
Theorem oversized_chunk_is_whole_list file_paths chunk_size paths size :
  json_loads file_paths = Some (JArr paths) ->
  int chunk_size = Ok size ->
  1 <= size ->
  Z.of_nat (length paths) <= size ->
  plan file_paths chunk_size =
    Ok (match paths with
        | [] => []
        | _ => [ {| chunk := json_dumps (JArr paths) |} ]
        end).
Proof.
  intros Hpaths Hsize Hpos Hfits.
  set (s := Z.to_nat size).
  assert (Hs : size = Z.of_nat s) by lia. rewrite Hs in Hsize, Hfits.
  rewrite (execute_chunks _ _ _ s Hpaths Hsize) by lia.
  unfold range_len.
  destruct (Z.ltb_spec 0 (Z.of_nat s)) as [_|?]; [|lia].
  destruct paths as [|path paths]; [reflexivity|].
  cbn [length] in *.
  destruct (Z.ltb_spec 0 (Z.of_nat (S (length paths)))) as [_|?]; [|lia].
  rewrite Z.div_small by lia.
  change (Z.to_nat (0 + 1)) with 1%nat. cbn [seq map Nat.mul drop].
  rewrite take_ge by (cbn [length]; lia). reflexivity.
Qed.

(** X7.  With the chunk size 1 every path is a chunk of its own, and the
    chunks follow the order in which the file distribution node of the
    single-document pipeline emits the paths. *)
Theorem unit_chunks_match_distribution file_paths chunk_size paths :
  json_loads file_paths = Some (JArr paths) ->
  int chunk_size = Ok 1 ->
  plan file_paths chunk_size =
    Ok (map (fun path => {| chunk := json_dumps (JArr [path]) |}) paths) /\
  FileDistribution.execute json_loads json_dumps file_paths =
    Ok (map (fun path => {| FileDistribution.file_path := json_dumps path |})
            paths).
Proof.
  intros Hpaths Hsize. split.
  - rewrite (execute_chunks _ _ _ 1%nat Hpaths Hsize) by lia.
    f_equal. rewrite map_map.
    assert (Hcount : Z.to_nat (range_len 0 (Z.of_nat (length paths))
                                 (Z.of_nat 1)) = length paths).
    { destruct (ChunkingSpec.range_len_ceil (Z.of_nat (length paths))
                  (Z.of_nat 1) ltac:(lia) ltac:(lia)) as [_ Hbounds]. lia. }
    rewrite Hcount. apply list_eq. intros k. rewrite !list_lookup_fmap.
    destruct (paths !! k) as [path|] eqn:Hk; cbn.
    + rewrite lookup_seq_lt by (now apply lookup_lt_Some with path). cbn.
      rewrite Nat.mul_1_r, (drop_S _ _ _ Hk). reflexivity.
    + rewrite lookup_seq_ge; [reflexivity|]. now apply lookup_ge_None.
  - unfold FileDistribution.execute, Py.loads. now rewrite Hpaths.
Qed.

End Plan.

Lemma chunk_elements_by_position_witness :
  exists chunks : list (list JSON),
    execute Examples.example_loads Examples.example_dumps
      (Examples.example_dumps Examples.example_paths) "5" =
      Ok (map (fun c => {| chunk := Examples.example_dumps (JArr c) |})
              chunks) /\
    chunks !! 2%nat ≫= (fun c => c !! 1%nat) = Some (JStr "l.txt").
Proof.
  destruct (chunk_elements_by_position
              Examples.example_loads Examples.example_dumps
              (Examples.example_dumps Examples.example_paths) "5"
              (map JStr
                 [ "a.txt"; "b.txt"; "c.pdf"; "d.txt"; "e.docx"; "f.txt";
                   "g.txt"; "h.txt"; "i.txt"; "j.txt"; "k.txt"; "l.txt" ])
              5 eq_refl eq_refl ltac:(lia))
    as (chunks & Hplan & _ & Heach).
  exists chunks. split; [exact Hplan|].
  exact (Heach 2%nat 1%nat ltac:(lia)).
Defined.

Lemma oversized_chunk_is_whole_list_witness :
  execute Examples.example_loads Examples.example_dumps
    (Examples.example_dumps Examples.example_paths) "20" =
  Ok [ {| chunk := Examples.example_dumps Examples.example_paths |} ].
Proof.
  exact (oversized_chunk_is_whole_list
           Examples.example_loads Examples.example_dumps
           (Examples.example_dumps Examples.example_paths) "20"
           (map JStr
              [ "a.txt"; "b.txt"; "c.pdf"; "d.txt"; "e.docx"; "f.txt";
                "g.txt"; "h.txt"; "i.txt"; "j.txt"; "k.txt"; "l.txt" ])
           20 eq_refl eq_refl ltac:(lia) ltac:(cbn; lia)).
Defined.

Lemma unit_chunks_match_distribution_witness :
  execute Examples.example_loads Examples.example_dumps
    (Examples.example_dumps Examples.example_paths) "1" =
    Ok (map (fun path => {| chunk := Examples.example_dumps (JArr [path]) |})
          (map JStr
             [ "a.txt"; "b.txt"; "c.pdf"; "d.txt"; "e.docx"; "f.txt";
               "g.txt"; "h.txt"; "i.txt"; "j.txt"; "k.txt"; "l.txt" ])) /\
  FileDistribution.execute Examples.example_loads Examples.example_dumps
    (Examples.example_dumps Examples.example_paths) =
    Ok (map (fun path =>
               {| FileDistribution.file_path := Examples.example_dumps path |})
          (map JStr
             [ "a.txt"; "b.txt"; "c.pdf"; "d.txt"; "e.docx"; "f.txt";
               "g.txt"; "h.txt"; "i.txt"; "j.txt"; "k.txt"; "l.txt" ])).
Proof.
  exact (unit_chunks_match_distribution
           Examples.example_loads Examples.example_dumps
           (Examples.example_dumps Examples.example_paths) "1"
           (map JStr
              [ "a.txt"; "b.txt"; "c.pdf"; "d.txt"; "e.docx"; "f.txt";
                "g.txt"; "h.txt"; "i.txt"; "j.txt"; "k.txt"; "l.txt" ])
           eq_refl eq_refl).
Defined.

End ChunkingExtra.

(** ** From the splitter to the validator *)

Module SplitValidateExtra.
Import Py PyFacts LoopFacts SplitResults.

Section Pipeline.

Variable json_loads : string -> option JSON.
Variable json_dumps : JSON -> string.
Variable error_message : JSON -> string.
Variable split_timestamp : nat -> string.
Variable validation_timestamp : string.

Let validate :=
  Validation.execute json_loads json_dumps error_message validation_timestamp.

(** The schema of the extracted data inside the record schema. *)
Let extracted_schema : Validation.Schema :=
  Validation.mkSchema "object"
    [ ("title", Validation.leaf "string");
      ("content", Validation.leaf "string");
      ("metadata", Validation.leaf "object") ]
    ["title"; "content"].

(** The record the splitter makes of an entry of a job whose task id and
    status are strings, when the response id of the entry is a string
    (or absent) and its content is a string or falsy. *)
Lemma split_one_record task_id status info i e content response_id :
  default (JStr EmptyString) (dict_get e "content") = content ->
  default (JStr ("response_" +:+ pretty i)) (dict_get e "response_id")
    = JStr response_id ->
  truthy content = false \/ (exists text, content = JStr text) ->
  let model_version := default (JStr "unknown") (dict_get e "model_version") in
  let usage_metadata := default (JObj []) (dict_get e "usage_metadata") in
  let metadata :=
    response_metadata (JStr response_id) model_version usage_metadata in
  split_one json_loads split_timestamp (JStr task_id) (JStr status)
    (JObj info) i (JObj e) =
  Ok (JObj
    [ ("task_id", JStr task_id);
      ("status", JStr status);
      ("result_index", JInt (Z.of_nat i));
      ("response_id", JStr response_id);
      ("model_version", model_version);
      ("usage_metadata", usage_metadata);
      ("file_path",
       JStr (if contains_char "_" response_id then response_id
             else EmptyString));
      ("extracted_data",
       if truthy content then
         match content with
         | JStr text =>
             match json_loads text with
             | Some v => v
             | None =>
                 JObj [ ("title", JStr "Document");
                        ("content", content);
                        ("metadata", metadata) ]
             end
         | _ => JNull
         end
       else
         JObj [ ("title", JStr "Empty Response");
                ("content", JStr "No content received");
                ("metadata", metadata) ]);
      ("batch_info", JObj info);
      ("split_timestamp", JStr (split_timestamp i)) ]).
Proof.
  intros Hcontent Hid Hshape. cbv zeta.
  unfold split_one. cbn [get mbind result_bind].
  rewrite Hcontent, Hid. cbn [contains_underscore mbind result_bind].
  destruct (truthy content) eqn:Htruthy.
  - destruct Hshape as [?|[text ->]]; [discriminate|].
    destruct (json_loads text); cbn [mbind result_bind];
      destruct (contains_char "_" response_id); reflexivity.
  - cbn [mbind result_bind].
    destruct (contains_char "_" response_id); reflexivity.
Qed.

(** The validator on a record of the splitter: the schema check comes
    down to the check of the extracted data. *)
Lemma validate_split_record individual_result batch_info binfo
    task_id status i response_id model_version usage_metadata file_path
    extracted_data info stamp :
  json_loads individual_result =
    Some (JObj
      [ ("task_id", JStr task_id);
        ("status", JStr status);
        ("result_index", JInt i);
        ("response_id", response_id);
        ("model_version", model_version);
        ("usage_metadata", usage_metadata);
        ("file_path", JStr file_path);
        ("extracted_data", extracted_data);
        ("batch_info", JObj info);
        ("split_timestamp", JStr stamp) ]) ->
  json_loads batch_info = Some binfo ->
  exists out,
    validate individual_result batch_info = Ok out /\
    (Validation.conforms extracted_schema extracted_data = false ->
     Validation.validation_status out = "invalid") /\
    (forall d title content,
       extracted_data = JObj d ->
       dict_get d "title" = Some (JStr title) ->
       dict_get d "content" = Some (JStr content) ->
       match dict_get d "metadata" with
       | Some (JObj _) | None => True
       | _ => False
       end ->
       Validation.validation_status out =
         if len (strip content) <? 10 then "partial"
         else if negb (string_truthy title) || negb (string_truthy content)
              then "partial" else "valid").
Proof.
  intros Hrecord Hinfo. unfold validate.
  rewrite (ValidationSpec.execute_object _ _ _ _ _ _ _ _ Hrecord Hinfo).
  assert (Hconforms :
    Validation.conforms Validation.schema
      (JObj
        [ ("task_id", JStr task_id);
          ("status", JStr status);
          ("result_index", JInt i);
          ("response_id", response_id);
          ("model_version", model_version);
          ("usage_metadata", usage_metadata);
          ("file_path", JStr file_path);
          ("extracted_data", extracted_data);
          ("batch_info", JObj info);
          ("split_timestamp", JStr stamp) ]) =
    Validation.conforms extracted_schema extracted_data).
  { cbn. now rewrite !andb_true_r. }
  rewrite Hconforms.
  cbn [dict_get String.eqb Ascii.eqb Bool.eqb default from_option id].
  destruct (Validation.conforms extracted_schema extracted_data) eqn:Hed.
  - destruct (Validation.heuristic_status extracted_data) as [st|e] eqn:Hst.
    + eexists. split; [reflexivity|]. split; [discriminate|].
      intros d title content -> Htitle Hcontent _.
      rewrite (ValidationSpec.heuristic_status_strings _ _ _ Htitle Hcontent)
        in Hst.
      now injection Hst as <-.
    + exfalso. destruct extracted_data as [| | | | | |d]; try discriminate Hed.
      cbn in Hed. unfold Validation.has_key in Hed.
      rewrite !andb_true_iff in Hed. destruct_and!.
      destruct (dict_get d "title") as [[| | | |title| |]|] eqn:Htitle;
        cbn in *; try congruence.
      destruct (dict_get d "content") as [[| | | |content| |]|] eqn:Hcontent;
        cbn in *; congruence.
  - eexists. split; [reflexivity|]. split; [reflexivity|].
    intros d title content -> Htitle Hcontent Hmeta. exfalso.
    cbn in Hed. unfold Validation.has_key in Hed.
    rewrite Htitle, Hcontent in Hed. cbn in Hed.
    destruct (dict_get d "metadata") as [[]|]; cbn in Hed;
      try contradiction; discriminate.
Qed.

(** X8.  An entry with an empty or missing content is split into the
    record with the title Empty Response and the content No content
    received, and the validator classifies that record valid. *)
Theorem empty_payload_is_classified_valid
    task_id status info i e response_id :
  truthy (default (JStr EmptyString) (dict_get e "content")) = false ->
  default (JStr ("response_" +:+ pretty i)) (dict_get e "response_id")
    = JStr response_id ->
  exists record,
    split_one json_loads split_timestamp (JStr task_id) (JStr status)
      (JObj info) i (JObj e) = Ok record /\
    get record "extracted_data" JNull =
      Ok (JObj [ ("title", JStr "Empty Response");
                 ("content", JStr "No content received");
                 ("metadata",
                  response_metadata (JStr response_id)
                    (default (JStr "unknown") (dict_get e "model_version"))
                    (default (JObj []) (dict_get e "usage_metadata"))) ]) /\
    forall individual_result batch_info binfo,
      json_loads individual_result = Some record ->
      json_loads batch_info = Some binfo ->
      exists out,
        validate individual_result batch_info = Ok out /\
        Validation.validation_status out = "valid".
Proof.
  intros Hfalsy Hid.
  pose proof (split_one_record task_id status info i e _ response_id
                eq_refl Hid (or_introl Hfalsy)) as Hsplit.
  cbv zeta in Hsplit. rewrite Hfalsy in Hsplit.
  eexists. split; [exact Hsplit|]. split; [reflexivity|].
  intros individual_result batch_info binfo Hrecord Hinfo.
  destruct (validate_split_record _ _ _ _ _ _ _ _ _ _ _ _ _ Hrecord Hinfo)
    as (out & Hout & _ & Hstatus).
  exists out. split; [exact Hout|].
  now rewrite (Hstatus _ "Empty Response" "No content received" eq_refl
                 eq_refl eq_refl I).
Qed.

(** X9.  An entry whose content is text that is not JSON is split into
    a record with the title Document and the text as content, and the
    validator classifies that record partial when the trimmed text is
    shorter than 10 characters and valid otherwise. *)
Theorem plain_text_payload_is_wrapped
    task_id status info i e response_id text :
  dict_get e "content" = Some (JStr text) ->
  text <> EmptyString ->
  json_loads text = None ->
  default (JStr ("response_" +:+ pretty i)) (dict_get e "response_id")
    = JStr response_id ->
  exists record,
    split_one json_loads split_timestamp (JStr task_id) (JStr status)
      (JObj info) i (JObj e) = Ok record /\
    get record "extracted_data" JNull =
      Ok (JObj [ ("title", JStr "Document");
                 ("content", JStr text);
                 ("metadata",
                  response_metadata (JStr response_id)
                    (default (JStr "unknown") (dict_get e "model_version"))
                    (default (JObj []) (dict_get e "usage_metadata"))) ]) /\
    forall individual_result batch_info binfo,
      json_loads individual_result = Some record ->
      json_loads batch_info = Some binfo ->
      exists out,
        validate individual_result batch_info = Ok out /\
        Validation.validation_status out =
          if len (strip text) <? 10 then "partial" else "valid".
Proof.
  intros Hcontent Htext Hplain Hid.
  assert (Hdefault : default (JStr EmptyString) (dict_get e "content")
                     = JStr text) by now rewrite Hcontent.
  pose proof (split_one_record task_id status info i e _ response_id
                Hdefault Hid (or_intror (ex_intro _ text eq_refl))) as Hsplit.
  cbv zeta in Hsplit.
  assert (Htruthy : truthy (JStr text) = true) by now destruct text.
  rewrite Htruthy, Hplain in Hsplit.
  eexists. split; [exact Hsplit|]. split; [reflexivity|].
  intros individual_result batch_info binfo Hrecord Hinfo.
  destruct (validate_split_record _ _ _ _ _ _ _ _ _ _ _ _ _ Hrecord Hinfo)
    as (out & Hout & _ & Hstatus).
  exists out. split; [exact Hout|].
  rewrite (Hstatus _ "Document" text eq_refl eq_refl eq_refl I).
  cbn in Htruthy. rewrite Htruthy. reflexivity.
Qed.

(** X10.  An entry whose content is JSON text is split into a record
    with the parsed value as extracted data, and the validator
    classifies the record invalid unless that value is an object with a
    string title and a string content. *)
Theorem json_payload_is_validated_as_parsed
    task_id status info i e response_id text v :
  dict_get e "content" = Some (JStr text) ->
  text <> EmptyString ->
  json_loads text = Some v ->
  default (JStr ("response_" +:+ pretty i)) (dict_get e "response_id")
    = JStr response_id ->
  exists record,
    split_one json_loads split_timestamp (JStr task_id) (JStr status)
      (JObj info) i (JObj e) = Ok record /\
    get record "extracted_data" JNull = Ok v /\
    forall individual_result batch_info binfo,
      json_loads individual_result = Some record ->
      json_loads batch_info = Some binfo ->
      exists out,
        validate individual_result batch_info = Ok out /\
        (match v with
         | JObj d =>
             Validation.is_string_field d "title" &&
             Validation.is_string_field d "content"
         | _ => false
         end = false ->
         Validation.validation_status out = "invalid").
Proof.
  intros Hcontent Htext Hjson Hid.
  assert (Hdefault : default (JStr EmptyString) (dict_get e "content")
                     = JStr text) by now rewrite Hcontent.
  pose proof (split_one_record task_id status info i e _ response_id
                Hdefault Hid (or_intror (ex_intro _ text eq_refl))) as Hsplit.
  cbv zeta in Hsplit.
  assert (Htruthy : truthy (JStr text) = true) by now destruct text.
  rewrite Htruthy, Hjson in Hsplit.
  eexists. split; [exact Hsplit|]. split; [reflexivity|].
  intros individual_result batch_info binfo Hrecord Hinfo.
  destruct (validate_split_record _ _ _ _ _ _ _ _ _ _ _ _ _ Hrecord Hinfo)
    as (out & Hout & Hinvalid & _).
  exists out. split; [exact Hout|].
  intros Hfields. apply Hinvalid.
  destruct v as [| | | | | |d]; try reflexivity.
  cbn. unfold Validation.has_key, Validation.is_string_field in *.
  destruct (dict_get d "title") as [[]|]; cbn in *; try reflexivity;
    destruct (dict_get d "content") as [[]|]; cbn in *;
    try reflexivity; discriminate.
Qed.

End Pipeline.

Lemma empty_payload_is_classified_valid_witness :
  exists record out,
    split_one Examples.example_split_loads (fun _ => Examples.example_timestamp)
      (JStr "batches/1") (JStr "completed") (JObj []) 2
      (Examples.example_entry "r_2" EmptyString) = Ok record /\
    Validation.execute Examples.example_split_loads Examples.example_dumps
      Examples.example_error_message Examples.example_timestamp
      (Examples.example_dumps record) "{}" = Ok out /\
    Validation.validation_status out = "valid".
Proof.
  destruct (empty_payload_is_classified_valid
              Examples.example_split_loads Examples.example_dumps
              Examples.example_error_message
              (fun _ => Examples.example_timestamp)
              Examples.example_timestamp
              "batches/1" "completed" [] 2%nat
              [ ("response_id", JStr "r_2");
                ("model_version", JStr "gemini-2.5-flash");
                ("content", JStr EmptyString);
                ("usage_metadata", JObj [("total_token_count", JInt 42)]) ]
              "r_2" eq_refl eq_refl)
    as (record & Hsplit & _ & Hvalidate).
  assert (Hrecord : Examples.example_split_loads (Examples.example_dumps record)
                    = Some record).
  { vm_compute in Hsplit. injection Hsplit as <-. vm_compute. reflexivity. }
  destruct (Hvalidate (Examples.example_dumps record) "{}" (JObj [])
              Hrecord eq_refl) as (out & Hout & Hstatus).
  exists record, out. split; [exact Hsplit|]. split; [exact Hout|exact Hstatus].
Defined.

Lemma plain_text_payload_is_wrapped_witness :
  exists record out,
    split_one Examples.example_split_loads (fun _ => Examples.example_timestamp)
      (JStr "batches/1") (JStr "completed") (JObj []) 0
      (Examples.example_entry "r_0" "first document") = Ok record /\
    Validation.execute Examples.example_split_loads Examples.example_dumps
      Examples.example_error_message Examples.example_timestamp
      (Examples.example_dumps record) "{}" = Ok out /\
    Validation.validation_status out = "valid".
Proof.
  destruct (plain_text_payload_is_wrapped
              Examples.example_split_loads Examples.example_dumps
              Examples.example_error_message
              (fun _ => Examples.example_timestamp)
              Examples.example_timestamp
              "batches/1" "completed" [] 0%nat
              [ ("response_id", JStr "r_0");
                ("model_version", JStr "gemini-2.5-flash");
                ("content", JStr "first document");
                ("usage_metadata", JObj [("total_token_count", JInt 42)]) ]
              "r_0" "first document" eq_refl ltac:(discriminate)
              eq_refl eq_refl)
    as (record & Hsplit & _ & Hvalidate).
  assert (Hrecord : Examples.example_split_loads (Examples.example_dumps record)
                    = Some record).
  { vm_compute in Hsplit. injection Hsplit as <-. vm_compute. reflexivity. }
  destruct (Hvalidate (Examples.example_dumps record) "{}" (JObj [])
              Hrecord eq_refl) as (out & Hout & Hstatus).
  exists record, out. split; [exact Hsplit|]. split; [exact Hout|exact Hstatus].
Defined.

Lemma json_payload_is_validated_as_parsed_witness :
  exists record out,
    split_one Examples.example_split_loads (fun _ => Examples.example_timestamp)
      (JStr "batches/1") (JStr "completed") (JObj []) 3
      (Examples.example_entry "r3" "7") = Ok record /\
    Validation.execute Examples.example_split_loads Examples.example_dumps
      Examples.example_error_message Examples.example_timestamp
      (Examples.example_dumps record) "{}" = Ok out /\
    Validation.validation_status out = "invalid".
Proof.
  destruct (json_payload_is_validated_as_parsed
              Examples.example_split_loads Examples.example_dumps
              Examples.example_error_message
              (fun _ => Examples.example_timestamp)
              Examples.example_timestamp
              "batches/1" "completed" [] 3%nat
              [ ("response_id", JStr "r3");
                ("model_version", JStr "gemini-2.5-flash");
                ("content", JStr "7");
                ("usage_metadata", JObj [("total_token_count", JInt 42)]) ]
              "r3" "7" (JInt 7) eq_refl ltac:(discriminate)
              eq_refl eq_refl)
    as (record & Hsplit & _ & Hvalidate).
  assert (Hrecord : Examples.example_split_loads (Examples.example_dumps record)
                    = Some record).
  { vm_compute in Hsplit. injection Hsplit as <-. vm_compute. reflexivity. }
  destruct (Hvalidate (Examples.example_dumps record) "{}" (JObj [])
              Hrecord eq_refl) as (out & Hout & Hstatus).
  exists record, out. split; [exact Hsplit|]. split; [exact Hout|].
  exact (Hstatus eq_refl).
Defined.

End SplitValidateExtra.

(** ** The result splitter: malformed entries and recovered paths *)

Module SplitResultsExtra.
Import Py PyFacts LoopFacts SplitResults.

Section Split.

Variable json_loads : string -> option JSON.
Variable json_dumps : JSON -> string.
Variable timestamp : nat -> string.

Let split := execute json_loads json_dumps timestamp.

(** The loop stops with an exception at an entry it does not accept. *)
Lemma split_from_raises task_id status info entries : forall i,
  (exists entry, entry ∈ entries /\ splittable entry = false) ->
  exists e,
    split_from json_loads timestamp task_id status info i entries = Raise e.
Proof.
  induction entries as [|entry entries IH]; intros i (bad & Hbad & Hnot).
  - now apply elem_of_nil in Hbad.
  - cbn [split_from].
    destruct (split_one json_loads timestamp task_id status info i entry)
      as [r|e] eqn:Hentry; [|now exists e].
    cbn [mbind result_bind].
    apply elem_of_cons in Hbad as [-> | Hbad].
    + destruct (SplitResultsSpec.split_one_not_splittable json_loads timestamp
                  task_id status info i entry Hnot) as [e He].
      congruence.
    + destruct (IH (S i) (ex_intro _ bad (conj Hbad Hnot))) as [e He].
      rewrite He. now exists e.
Qed.

(** X11.  One entry that the loop does not accept (an entry that is not
    a dict, a truthy content that is not a string, a response id that
    is a number, a boolean or null) makes the splitter raise: it emits
    no individual result, also not for the entries before it. *)
Theorem split_fails_on_malformed_entry
    task_result batch_info d info entries :
  json_loads task_result = Some (JObj d) ->
  json_loads batch_info = Some (JObj info) ->
  default (JArr []) (dict_get d "results") = JArr entries ->
  (exists entry, entry ∈ entries /\ splittable entry = false) ->
  exists e, split task_result batch_info = Raise e.
Proof.
  intros Htask Hinfo Hresults Hbad.
  destruct (split_from_raises
              (default (JStr "unknown") (dict_get d "task_id"))
              (default (JStr "unknown") (dict_get d "status"))
              (JObj info) entries 0%nat Hbad) as [e He].
  exists e. unfold split, execute, Py.loads.
  rewrite Htask, Hinfo. cbn [mbind result_bind get]. rewrite Hresults.
  destruct entries as [|entry entries].
  - destruct Hbad as (bad & Hin & _). now apply elem_of_nil in Hin.
  - cbn [truthy negb iterate mbind result_bind]. now rewrite He.
Qed.

(** X12.  The file path of an individual result is recovered from the
    response id alone: it is the response id when that contains an
    underscore and the empty string otherwise; an entry without a
    response id gets response_<index> as its id and as its path. *)
Theorem file_path_is_recovered_from_response_id
    task_id status info i e :
  truthy (default (JStr EmptyString) (dict_get e "content")) = false \/
  (exists text, dict_get e "content" = Some (JStr text)) ->
  (forall response_id,
     dict_get e "response_id" = Some (JStr response_id) ->
     exists record,
       split_one json_loads timestamp task_id status info i (JObj e)
       = Ok record /\
       get record "response_id" JNull = Ok (JStr response_id) /\
       get record "file_path" JNull =
         Ok (JStr (if contains_char "_" response_id then response_id
                   else EmptyString))) /\
  (dict_get e "response_id" = None ->
   exists record,
     split_one json_loads timestamp task_id status info i (JObj e)
     = Ok record /\
     get record "response_id" JNull = Ok (JStr ("response_" +:+ pretty i)) /\
     get record "file_path" JNull = Ok (JStr ("response_" +:+ pretty i))).
Proof.
  intros Hcontent.
  assert (Hsplit : forall response_id,
    default (JStr ("response_" +:+ pretty i)) (dict_get e "response_id")
      = JStr response_id ->
    exists record,
      split_one json_loads timestamp task_id status info i (JObj e)
      = Ok record /\
      get record "response_id" JNull = Ok (JStr response_id) /\
      get record "file_path" JNull =
        Ok (JStr (if contains_char "_" response_id then response_id
                  else EmptyString))).
  { intros response_id Hid. unfold split_one. cbn [get mbind result_bind].
    rewrite Hid. cbn [contains_underscore mbind result_bind].
    destruct (truthy (default (JStr EmptyString) (dict_get e "content")))
      eqn:Htruthy.
    - destruct Hcontent as [?|[text Htext]]; [discriminate|].
      rewrite Htext. cbn [default from_option id].
      destruct (json_loads text); cbn [mbind result_bind];
        destruct (contains_char "_" response_id);
        eexists; repeat split; reflexivity.
    - cbn [mbind result_bind].
      destruct (contains_char "_" response_id);
        eexists; repeat split; reflexivity. }
  split.
  - intros response_id Hid. apply Hsplit. now rewrite Hid.
  - intros Hnone.
    destruct (Hsplit ("response_" +:+ pretty i)) as (record & Hr & Hid & Hpath).
    { now rewrite Hnone. }
    exists record. split; [exact Hr|]. split; [exact Hid|]. exact Hpath.
Qed.

End Split.

Lemma split_fails_on_malformed_entry_witness :
  exists e,
    execute Examples.example_bad_loads Examples.example_dumps
      (fun _ => Examples.example_timestamp)
      (Examples.example_dumps Examples.example_bad_task_result) "{}"
    = Raise e.
Proof.
  apply (split_fails_on_malformed_entry
           Examples.example_bad_loads Examples.example_dumps
           (fun _ => Examples.example_timestamp)
           (Examples.example_dumps Examples.example_bad_task_result) "{}"
           [ ("task_id", JStr "batches/2");
             ("status", JStr "completed");
             ("results",
              JArr [Examples.example_entry "r_0" "first document"; JInt 5]) ]
           [] [Examples.example_entry "r_0" "first document"; JInt 5]
           eq_refl eq_refl eq_refl).
  exists (JInt 5). split; [|reflexivity].
  apply list_elem_of_further, list_elem_of_here.
Defined.

Lemma file_path_is_recovered_from_response_id_witness :
  exists record,
    split_one Examples.example_loads (fun _ => Examples.example_timestamp)
      (JStr "batches/1") (JStr "completed") (JObj []) 3
      (Examples.example_entry "r3" "7") = Ok record /\
    get record "response_id" JNull = Ok (JStr "r3") /\
    get record "file_path" JNull = Ok (JStr EmptyString).
Proof.
  apply (proj1 (file_path_is_recovered_from_response_id
                  Examples.example_loads (fun _ => Examples.example_timestamp)
                  (JStr "batches/1") (JStr "completed") (JObj []) 3%nat
                  [ ("response_id", JStr "r3");
                    ("model_version", JStr "gemini-2.5-flash");
                    ("content", JStr "7");
                    ("usage_metadata",
                     JObj [("total_token_count", JInt 42)]) ]
                  (or_intror (ex_intro _ "7" eq_refl)))
           "r3" eq_refl).
Defined.

End SplitResultsExtra.

(** ** From the validator to the failure router *)

Module RouteExtra.
Import Py FailureHandling.

Section Pipeline.

Variable json_loads : string -> option JSON.
Variable json_dumps : JSON -> string.
Variable error_message : JSON -> string.
Variable validation_timestamp : string.
Variable repr : JSON -> string.
Variable now_compact : string.
Variable now_iso : string.

Let validate :=
  Validation.execute json_loads json_dumps error_message validation_timestamp.
Let route := execute json_loads repr now_compact now_iso.




(** X15.  The router adds at most the directory failures and writes at
    most one file, under the name
    failures/failures_<task id>_<timestamp>.csv; every other file is
    left as it was, and nothing at all is written for a valid record. *)
Theorem route_touches_only_its_ledger
    status batch_info validated_data fs :
  let fs' := (route status batch_info validated_data fs).2 in
  dirs fs ⊆ dirs fs' /\
  dirs fs' ⊆ {[ "failures" ]} ∪ dirs fs /\
  (status = "valid" -> fs' = fs) /\
  (files fs' = files fs \/
   exists task_id rows,
     files fs' =
       <[ "failures/failures_" +:+ task_id +:+ "_" +:+ now_compact +:+ ".csv"
          := rows ]> (files fs)).
Proof.
  assert (Hkeep : forall fs0 : FS,
            dirs fs0 ⊆ dirs fs0 /\
            dirs fs0 ⊆ {[ "failures" ]} ∪ dirs fs0 /\
            (status = "valid" -> fs0 = fs0) /\
            (files fs0 = files fs0 \/
             exists task_id rows,
               files fs0 =
                 <[ "failures/failures_" +:+ task_id +:+ "_" +:+ now_compact
                    +:+ ".csv" := rows ]> (files fs0))).
  { intros fs0. split; [reflexivity|]. split; [apply union_subseteq_r|].
    split; [reflexivity | now left]. }
  cbv zeta. unfold route, execute, Py.loads.
  destruct (json_loads batch_info) as [info|]; [|apply Hkeep].
  destruct (json_loads validated_data) as [data|]; [|apply Hkeep].
  cbn [mbind result_bind].
  destruct data as [| | | | | |d]; try apply Hkeep.
  cbn [mbind result_bind get].
  destruct (String.eqb_spec status "valid") as [->|Hne]; [apply Hkeep|].
  unfold _create_failure_csv. cbn [mbind result_bind get].
  destruct (_get_failure_reason status (JObj d)) as [reason|e];
    cbn [mbind result_bind snd dirs files].
  - split; [apply union_subseteq_r|]. split; [reflexivity|].
    split; [contradiction|]. right. eauto.
  - split; [apply union_subseteq_r|]. split; [reflexivity|].
    split; [contradiction|]. now left.
Qed.

End Pipeline.





End RouteExtra.

(** ** The batch request: what is submitted *)

Module BatchRequestExtra.
Import Py PyFacts LoopFacts BatchRequest.

Section Submit.

Variable json_loads : string -> option JSON.
Variable json_dumps : JSON -> string.
Variable repr : JSON -> string.
Variable batches_create : Submission -> result string.
Variable uuid4 : string.
Variable exn_str : exn -> string.
Variable open_read : string -> result string.
Variable pdfplumber_text : string -> option (result string).
Variable pypdf2_text : string -> result string.
Variable docx_text : string -> option (result string).

Let parse :=
  FileParsing.execute json_loads json_dumps uuid4 exn_str
    open_read pdfplumber_text pypdf2_text docx_text.
Let submit := execute json_loads json_dumps repr batches_create.

(** X17.  The parsed files that the file parsing node returns for a
    list of N paths are submitted in one call of the service, with one
    request per path; when the call returns, the batch information
    records the N paths in order, a file count and a request count of
    N, the status submitted and the task id it was given, and the
    output task id is the name the service assigned; when the call
    raises, the exception is the exception of the node and the call is
    not repeated. *)
Theorem parsed_files_are_submitted_once chunk paths prompt :
  json_loads chunk = Some (JArr paths) ->
  exists entries,
    entries =
      map (FileParsing.parse_file exn_str open_read pdfplumber_text
             pypdf2_text docx_text) paths /\
    parse chunk =
      Ok {| FileParsing.parsed_files := json_dumps (JArr entries);
            FileParsing.task_id := uuid4 |} /\
    forall parsed_files task_id,
      json_loads parsed_files = Some (JArr entries) ->
      exists requests,
        length requests = length paths /\
        let submission :=
          {| src := requests; display_name := "batch_job_" +:+ task_id |} in
        (forall name,
           batches_create submission = Ok name ->
           submit parsed_files task_id prompt =
             (Ok {| task_id := name;
                    batch_info := json_dumps (JObj
                      [ ("task_id", JStr task_id);
                        ("file_count", JInt (Z.of_nat (length paths)));
                        ("file_paths", JArr paths);
                        ("status", JStr "submitted");
                        ("gemini_batch_id", JStr name);
                        ("request_count",
                         JInt (Z.of_nat (length paths))) ]) |},
              [submission])) /\
        (forall e,
           batches_create submission = Raise e ->
           submit parsed_files task_id prompt = (Raise e, [submission])).
Proof.
  intros Hchunk.
  set (entry_of := FileParsing.parse_file exn_str open_read pdfplumber_text
                     pypdf2_text docx_text).
  exists (map entry_of paths). split; [reflexivity|]. split.
  { unfold parse, FileParsing.execute, Py.loads. now rewrite Hchunk. }
  intros parsed_files task_id Hparsed.
  assert (Hpaths : traverse (fun file_data => getitem file_data "file_path")
                     (map entry_of paths) = Ok paths).
  { rewrite (traverse_total _ (fun entry =>
               match entry with
               | JObj ((_, path) :: _) => path
               | _ => JNull
               end)).
    - f_equal. rewrite map_map. rewrite <- (map_id paths) at 2.
      apply map_ext. intros path. unfold entry_of, FileParsing.parse_file.
      now destruct (FileParsing._read_file_content _ _ _ _ path).
    - intros entry (path & -> & _)%list_elem_of_fmap.
      unfold entry_of, FileParsing.parse_file.
      now destruct (FileParsing._read_file_content _ _ _ _ path). }
  destruct (traverse_returns (inline_request repr prompt) (map entry_of paths))
    as [requests Hrequests].
  { intros entry (path & -> & _)%list_elem_of_fmap.
    unfold entry_of, FileParsing.parse_file.
    destruct (FileParsing._read_file_content _ _ _ _ path);
      eexists; reflexivity. }
  assert (Hlen : length requests = length paths).
  { rewrite (traverse_length _ _ _ Hrequests). apply length_map. }
  exists requests. split; [exact Hlen|]. cbv zeta.
  assert (Hprepare : prepare json_loads repr parsed_files prompt =
            Ok (Z.of_nat (length paths), paths, requests)).
  { unfold prepare, Py.loads, inline_requests. rewrite Hparsed.
    cbn [mbind result_bind py_len iterate]. rewrite Hpaths, Hrequests.
    cbn [mbind result_bind]. now rewrite length_map. }
  split.
  - intros name Hname. unfold submit, execute.
    rewrite Hprepare, Hname. now rewrite Hlen.
  - intros e He. unfold submit, execute. now rewrite Hprepare, He.
Qed.

(** X18.  Parsed files with an entry that has no file path or no
    content (or that is not a dict) make the node raise before it calls
    the service: nothing is submitted. *)
Theorem malformed_parsed_files_are_not_submitted
    parsed_files task_id prompt entries :
  json_loads parsed_files = Some (JArr entries) ->
  (exists entry,
     entry ∈ entries /\
     ((exists e, getitem entry "file_path" = Raise e) \/
      (exists e, getitem entry "content" = Raise e))) ->
  exists e, submit parsed_files task_id prompt = (Raise e, []).
Proof.
  intros Hparsed (bad & Hbad & Hmissing).
  assert (Hprepare : exists e,
            prepare json_loads repr parsed_files prompt = Raise e).
  { unfold prepare, Py.loads, inline_requests. rewrite Hparsed.
    cbn [mbind result_bind py_len iterate].
    destruct (traverse (fun file_data => getitem file_data "file_path")
                entries) as [file_paths|e] eqn:Hpaths; [|now exists e].
    cbn [mbind result_bind].
    destruct Hmissing as [[e He] | [e He]].
    - destruct (traverse_ok_inv _ _ _ Hpaths bad Hbad) as [y Hy]. congruence.
    - destruct (traverse_raises_some (inline_request repr prompt) entries)
        as [e' He'].
      { exists bad, e. split; [exact Hbad|].
        unfold inline_request. now rewrite He. }
      rewrite He'. now exists e'. }
  destruct Hprepare as [e He]. exists e.
  unfold submit, execute. now rewrite He.
Qed.

End Submit.

Lemma parsed_files_are_submitted_once_witness :
  exists entries out submissions,
    FileParsing.execute Examples.example_submit_loads Examples.example_dumps
      "task-1" Examples.example_exn_str Examples.example_open_read
      (fun _ => None) (fun _ => Raise (External "PyPDF2 is not installed"))
      (fun _ => None) (Examples.example_dumps Examples.example_paths)
    = Ok {| FileParsing.parsed_files := Examples.example_dumps (JArr entries);
            FileParsing.task_id := "task-1" |} /\
    execute Examples.example_submit_loads Examples.example_dumps
      (fun _ => "?") (fun _ => Ok "batches/77")
      (Examples.example_dumps (JArr entries)) "task-1"
      "Extract the title and the content."
    = (Ok out, submissions) /\
    task_id out = "batches/77" /\
    length submissions = 1%nat.
Proof.
  destruct (parsed_files_are_submitted_once
              Examples.example_submit_loads Examples.example_dumps
              (fun _ => "?") (fun _ => Ok "batches/77")
              "task-1" Examples.example_exn_str Examples.example_open_read
              (fun _ => None)
              (fun _ => Raise (External "PyPDF2 is not installed"))
              (fun _ => None)
              (Examples.example_dumps Examples.example_paths)
              (map JStr
                 [ "a.txt"; "b.txt"; "c.pdf"; "d.txt"; "e.docx"; "f.txt";
                   "g.txt"; "h.txt"; "i.txt"; "j.txt"; "k.txt"; "l.txt" ])
              "Extract the title and the content." eq_refl)
    as (entries & Hentries & Hparse & Hsubmit).
  assert (Hparsed : Examples.example_submit_loads
                      (Examples.example_dumps (JArr entries))
                    = Some (JArr entries)).
  { rewrite Hentries. vm_compute. reflexivity. }
  destruct (Hsubmit (Examples.example_dumps (JArr entries)) "task-1" Hparsed)
    as (requests & _ & Hok & _).
  do 3 eexists. split; [exact Hparse|].
  split; [exact (Hok "batches/77" eq_refl)|]. split; reflexivity.
Defined.

Lemma malformed_parsed_files_are_not_submitted_witness :
  exists e,
    execute Examples.example_submit_loads Examples.example_dumps
      (fun _ => "?") (fun _ => Ok "batches/77")
      (Examples.example_dumps Examples.example_bad_parsed_files) "task-1"
      "Extract the title and the content."
    = (Raise e, []).
Proof.
  apply (malformed_parsed_files_are_not_submitted
           Examples.example_submit_loads Examples.example_dumps
           (fun _ => "?") (fun _ => Ok "batches/77")
           (Examples.example_dumps Examples.example_bad_parsed_files)
           "task-1" "Extract the title and the content."
           [ JObj [("file_path", JStr "a.txt")] ] eq_refl).
  exists (JObj [("file_path", JStr "a.txt")]).
  split; [apply list_elem_of_here|]. right. now exists KeyError.
Defined.

End BatchRequestExtra.

(** ** The persistence writer: outcomes and the use of the client *)

Module DatabaseWriteExtra.
Import Py DatabaseWrite.

Section Write.

Variable json_loads : string -> option JSON.
Variable create_index : string -> option exn.
Variable insert_one : JSON -> option exn.
Variable current_time : JSON.

Let write := execute json_loads create_index insert_one current_time.

(** The document [_write_record] makes of validated data. *)
Let document_of (d : list (string * JSON)) (info : JSON) : JSON :=
  JObj [ ("task_id", default (JStr "unknown") (dict_get d "task_id"));
         ("file_path", default (JStr EmptyString) (dict_get d "file_path"));
         ("extracted_data", default (JObj []) (dict_get d "extracted_data"));
         ("processing_status",
          default (JStr "completed") (dict_get d "validation_status"));
         ("created_at", current_time);
         ("updated_at", current_time);
         ("batch_info", info) ].

(** X19.  Once the four indexes are created, the writer inserts exactly
    one document and closes the client, and it never raises: a failure
    of the insert is reported as the status failed with a record count
    of 0, a success as the status success with a record count of 1. *)
Theorem write_failure_is_reported_not_raised
    validated_data batch_info d info :
  json_loads validated_data = Some (JObj d) ->
  json_loads batch_info = Some info ->
  (forall key,
     key ∈ ["task_id"; "file_path"; "processing_status"; "created_at"] ->
     create_index key = None) ->
  write validated_data batch_info =
    (Ok (match insert_one (document_of d info) with
         | None => {| write_status := "success"; record_count := "1" |}
         | Some _ => {| write_status := "failed"; record_count := "0" |}
         end),
     [ Connect; CreateIndex "task_id"; CreateIndex "file_path";
       CreateIndex "processing_status"; CreateIndex "created_at";
       InsertOne (document_of d info); Close ]).
Proof.
  intros Hdata Hinfo Hindexes. unfold write, execute, Py.loads.
  rewrite Hdata, Hinfo. cbn [mbind result_bind get].
  unfold _ensure_collection_exists. cbn [create_indexes].
  rewrite !Hindexes by (rewrite !elem_of_cons; tauto).
  unfold _write_record. cbn [mbind result_bind get]. fold (document_of d info).
  destruct (insert_one (document_of d info)); reflexivity.
Qed.

(** X20.  When the creation of an index fails, the exception is the
    exception of the node: no document is inserted, and the client is
    not closed. *)
Theorem index_failure_propagates_without_close
    validated_data batch_info d info :
  json_loads validated_data = Some (JObj d) ->
  json_loads batch_info = Some info ->
  (exists key,
     key ∈ ["task_id"; "file_path"; "processing_status"; "created_at"] /\
     create_index key <> None) ->
  exists e events,
    write validated_data batch_info = (Raise e, events) /\
    head events = Some Connect /\
    (Close ∉ events) /\
    (forall document, InsertOne document ∉ events).
Proof.
  intros Hdata Hinfo (key & Hkey & Hfails). unfold write, execute, Py.loads.
  rewrite Hdata, Hinfo. cbn [mbind result_bind get].
  unfold _ensure_collection_exists. cbn [create_indexes].
  destruct (create_index "task_id") as [e|] eqn:H1.
  { exists e. eexists. split; [reflexivity|]. split; [reflexivity|].
    split; [|intros document]; rewrite !elem_of_cons, elem_of_nil;
      intros Hin; decompose [or] Hin; discriminate || contradiction. }
  destruct (create_index "file_path") as [e|] eqn:H2.
  { exists e. eexists. split; [reflexivity|]. split; [reflexivity|].
    split; [|intros document]; rewrite !elem_of_cons, elem_of_nil;
      intros Hin; decompose [or] Hin; discriminate || contradiction. }
  destruct (create_index "processing_status") as [e|] eqn:H3.
  { exists e. eexists. split; [reflexivity|]. split; [reflexivity|].
    split; [|intros document]; rewrite !elem_of_cons, elem_of_nil;
      intros Hin; decompose [or] Hin; discriminate || contradiction. }
  destruct (create_index "created_at") as [e|] eqn:H4.
  { exists e. eexists. split; [reflexivity|]. split; [reflexivity|].
    split; [|intros document]; rewrite !elem_of_cons, elem_of_nil;
      intros Hin; decompose [or] Hin; discriminate || contradiction. }
  exfalso. rewrite !elem_of_cons, elem_of_nil in Hkey.
  decompose [or] Hkey; subst; contradiction.
Qed.

End Write.

Section Persist.

Variable json_loads : string -> option JSON.
Variable json_dumps : JSON -> string.
Variable error_message : JSON -> string.
Variable validation_timestamp : string.
Variable create_index : string -> option exn.
Variable insert_one : JSON -> option exn.
Variable current_time : JSON.

Let validate :=
  Validation.execute json_loads json_dumps error_message validation_timestamp.
Let write := execute json_loads create_index insert_one current_time.

(** X21.  The writer is not gated on the validation status: the record
    the validator returns for any JSON object, valid, partial or
    invalid, is inserted, with the validation status as its processing
    status; the document of an invalid record has empty extracted data,
    the document of any other record has the extracted data of the
    individual result. *)
Theorem every_validated_record_is_inserted
    individual_result batch_info d info :
  json_loads individual_result = Some (JObj d) ->
  json_loads batch_info = Some info ->
  (forall key,
     key ∈ ["task_id"; "file_path"; "processing_status"; "created_at"] ->
     create_index key = None) ->
  exists out record,
    validate individual_result batch_info = Ok out /\
    Validation.validated_data out = json_dumps record /\
    forall text,
      json_loads text = Some record ->
      exists document,
        (write text batch_info).2 =
          [ Connect; CreateIndex "task_id"; CreateIndex "file_path";
            CreateIndex "processing_status"; CreateIndex "created_at";
            InsertOne document; Close ] /\
        get document "processing_status" JNull =
          Ok (JStr (Validation.validation_status out)) /\
        get document "batch_info" JNull = Ok info /\
        get document "extracted_data" JNull =
          Ok (if String.eqb (Validation.validation_status out) "invalid"
              then JObj []
              else default (JObj []) (dict_get d "extracted_data")).
Proof.
  intros Hresult Hinfo Hindexes.
  assert (Hwrite : forall text d',
    json_loads text = Some (JObj d') ->
    (write text batch_info).2 =
      [ Connect; CreateIndex "task_id"; CreateIndex "file_path";
        CreateIndex "processing_status"; CreateIndex "created_at";
        InsertOne (JObj
          [ ("task_id", default (JStr "unknown") (dict_get d' "task_id"));
            ("file_path",
             default (JStr EmptyString) (dict_get d' "file_path"));
            ("extracted_data",
             default (JObj []) (dict_get d' "extracted_data"));
            ("processing_status",
             default (JStr "completed") (dict_get d' "validation_status"));
            ("created_at", current_time);
            ("updated_at", current_time);
            ("batch_info", info) ]);
        Close ]).
  { intros text d' Htext. unfold write, execute, Py.loads.
    rewrite Htext, Hinfo. cbn [mbind result_bind get].
    unfold _ensure_collection_exists. cbn [create_indexes].
    rewrite !Hindexes by (rewrite !elem_of_cons; tauto).
    unfold _write_record. cbn [mbind result_bind get].
    destruct (insert_one _); reflexivity. }
  unfold validate.
  rewrite (ValidationSpec.execute_object _ _ _ _ _ _ _ _ Hresult Hinfo).
  destruct (Validation.conforms Validation.schema (JObj d)) eqn:Hconforms.
  - destruct (ValidationSpec.conforms_schema_inv d Hconforms)
      as (task_id & status & file_path & e & title & content &
          _ & _ & _ & Hdata & Htitle & Hcontent).
    rewrite Hdata. cbn [default from_option id].
    rewrite (ValidationSpec.heuristic_status_strings e title content
               Htitle Hcontent).
    cbn [mbind result_bind].
    do 2 eexists. split; [reflexivity|]. split; [reflexivity|].
    intros text Htext. eexists. split; [exact (Hwrite _ _ Htext)|].
    cbn [Validation.validation_status].
    split; [reflexivity|]. split; [reflexivity|].
    destruct (len (strip content) <? 10); [reflexivity|].
    destruct (negb (string_truthy title) || negb (string_truthy content));
      reflexivity.
  - do 2 eexists. split; [reflexivity|]. split; [reflexivity|].
    intros text Htext. eexists. split; [exact (Hwrite _ _ Htext)|].
    repeat split; reflexivity.
Qed.

End Persist.

Lemma write_failure_is_reported_not_raised_witness :
  exists events,
    execute Examples.example_loads (fun _ => None)
      (fun _ => Some (External "duplicate key")) (JStr "2025-01-01 00:00:00")
      (Examples.example_dumps
         (Examples.example_validated "x" "short" "partial")) "{}"
    = (Ok {| write_status := "failed"; record_count := "0" |}, events) /\
    last events = Some Close.
Proof.
  eexists. split.
  - apply (write_failure_is_reported_not_raised
             Examples.example_loads (fun _ => None)
             (fun _ => Some (External "duplicate key"))
             (JStr "2025-01-01 00:00:00")
             (Examples.example_dumps
                (Examples.example_validated "x" "short" "partial")) "{}"
             [ ("task_id", JStr "batches/1");
               ("status", JStr "completed");
               ("result_index", JInt 0);
               ("file_path", JStr "a_1");
               ("extracted_data",
                JObj [ ("title", JStr "x"); ("content", JStr "short") ]);
               ("validation_timestamp", JStr Examples.example_timestamp);
               ("validation_status", JStr "partial");
               ("batch_info", JObj []) ]
             (JObj []) eq_refl eq_refl (fun _ _ => eq_refl)).
  - reflexivity.
Defined.

Lemma index_failure_propagates_without_close_witness :
  exists e events,
    execute Examples.example_loads
      (fun key => if String.eqb key "file_path"
                  then Some (External "not authorized") else None)
      (fun _ => None) (JStr "2025-01-01 00:00:00")
      (Examples.example_dumps
         (Examples.example_validated "x" "short" "partial")) "{}"
    = (Raise e, events) /\
    head events = Some Connect /\
    (Close ∉ events) /\
    (forall document, InsertOne document ∉ events).
Proof.
  apply (index_failure_propagates_without_close
           Examples.example_loads
           (fun key => if String.eqb key "file_path"
                       then Some (External "not authorized") else None)
           (fun _ => None) (JStr "2025-01-01 00:00:00")
           (Examples.example_dumps
              (Examples.example_validated "x" "short" "partial")) "{}"
           [ ("task_id", JStr "batches/1");
             ("status", JStr "completed");
             ("result_index", JInt 0);
             ("file_path", JStr "a_1");
             ("extracted_data",
              JObj [ ("title", JStr "x"); ("content", JStr "short") ]);
             ("validation_timestamp", JStr Examples.example_timestamp);
             ("validation_status", JStr "partial");
             ("batch_info", JObj []) ]
           (JObj []) eq_refl eq_refl).
  exists "file_path". split; [|discriminate].
  apply list_elem_of_further, list_elem_of_here.
Defined.

Lemma every_validated_record_is_inserted_witness :
  exists out record,
    Validation.execute Examples.example_loads Examples.example_dumps
      Examples.example_error_message Examples.example_timestamp
      (Examples.example_dumps (Examples.example_record "x" "short")) "{}"
    = Ok out /\
    Validation.validated_data out = Examples.example_dumps record.
Proof.
  destruct (every_validated_record_is_inserted
              Examples.example_loads Examples.example_dumps
              Examples.example_error_message Examples.example_timestamp
              (fun _ => None) (fun _ => None) (JStr "2025-01-01 00:00:00")
              (Examples.example_dumps (Examples.example_record "x" "short"))
              "{}"
              [ ("task_id", JStr "batches/1");
                ("status", JStr "completed");
                ("result_index", JInt 0);
                ("file_path", JStr "a_1");
                ("extracted_data",
                 JObj [ ("title", JStr "x"); ("content", JStr "short") ]) ]
              (JObj []) eq_refl eq_refl (fun _ _ => eq_refl))
    as (out & record & Hout & Hdata & _).
  exists out, record. split; [exact Hout | exact Hdata].
Defined.

End DatabaseWriteExtra.

(** ** The single-document pipeline *)

Module SyncExtra.
Import Py.

Section Pipeline.

Variable json_loads : string -> option JSON.
Variable json_dumps : JSON -> string.
Variable validation_timestamp : string.
Variable now_compact : string.
Variable now_iso : string.

Let validate := SyncValidation.execute json_loads json_dumps validation_timestamp.
Let route := SyncFailureHandling.execute json_loads now_compact now_iso.

(** The failure handler on a validated result that parses to a dict. *)
Lemma sync_route_object validated_result file_info d info fs :
  json_loads validated_result = Some (JObj d) ->
  json_loads file_info = Some info ->
  route validated_result file_info fs =
    if SyncValidation.equals_str
         (default (JStr "unknown") (dict_get d "status")) "failed"
    then
      (Ok {| SyncFailureHandling.failure_status := "failure_logged" |},
       {| FailureHandling.dirs := {[ "failures" ]} ∪ FailureHandling.dirs fs;
          FailureHandling.files :=
            <[ "failures/failed_files_" +:+ now_compact +:+ ".csv" :=
               [ [JStr "file_path"; JStr "task_id"; JStr "error";
                  JStr "timestamp"];
                 [default (JStr EmptyString) (dict_get d "file_path");
                  default (JStr EmptyString) (dict_get d "task_id");
                  default (JStr "Unknown error") (dict_get d "error");
                  JStr now_iso] ] ]>
              (FailureHandling.files fs) |})
    else (Ok {| SyncFailureHandling.failure_status := "no_failure" |}, fs).
Proof.
  intros Hresult Hinfo. unfold route, SyncFailureHandling.execute, Py.loads.
  rewrite Hresult, Hinfo. reflexivity.
Qed.

(** X22.  In the single-document pipeline a failure is logged exactly
    for the file information whose status is not completed: the
    validator returns a failed result with the error of the file
    information (Processing failed when it has none), passes the file
    information on unchanged, and the failure handler writes one row
    with that error; for the status completed with a text response
    nothing is written. *)
Theorem sync_failure_is_logged_iff_not_completed file_info d fs :
  json_loads file_info = Some (JObj d) ->
  (SyncValidation.equals_str
     (default (JStr "unknown") (dict_get d "status")) "completed" = true ->
   exists text,
     default (JStr EmptyString) (dict_get d "response_content") = JStr text) ->
  exists out record,
    validate file_info = Ok out /\
    SyncValidation.file_info out = file_info /\
    SyncValidation.validated_result out = json_dumps record /\
    forall validated_result,
      json_loads validated_result = Some record ->
      route validated_result file_info fs =
        if SyncValidation.equals_str
             (default (JStr "unknown") (dict_get d "status")) "completed"
        then (Ok {| SyncFailureHandling.failure_status := "no_failure" |}, fs)
        else
          (Ok {| SyncFailureHandling.failure_status := "failure_logged" |},
           {| FailureHandling.dirs :=
                {[ "failures" ]} ∪ FailureHandling.dirs fs;
              FailureHandling.files :=
                <[ "failures/failed_files_" +:+ now_compact +:+ ".csv" :=
                   [ [JStr "file_path"; JStr "task_id"; JStr "error";
                      JStr "timestamp"];
                     [default (JStr EmptyString) (dict_get d "file_path");
                      default (JStr EmptyString) (dict_get d "task_id");
                      default (JStr "Processing failed") (dict_get d "error");
                      JStr now_iso] ] ]>
                  (FailureHandling.files fs) |}).
Proof.
  intros Hinfo Htext. unfold validate, SyncValidation.execute, Py.loads.
  rewrite Hinfo. cbn [mbind result_bind get].
  destruct (SyncValidation.equals_str
              (default (JStr "unknown") (dict_get d "status")) "completed")
    eqn:Hcompleted; cbn [negb mbind result_bind].
  - destruct (Htext eq_refl) as [text ->].
    destruct (json_loads text) as [v|]; cbn [mbind result_bind];
      do 2 eexists;
      (split; [reflexivity|]); (split; [reflexivity|]);
      (split; [reflexivity|]);
      intros validated_result Hresult;
      rewrite (sync_route_object _ _ _ _ _ Hresult Hinfo); reflexivity.
  - do 2 eexists. split; [reflexivity|]. split; [reflexivity|].
    split; [reflexivity|]. intros validated_result Hresult.
    rewrite (sync_route_object _ _ _ _ _ Hresult Hinfo). reflexivity.
Qed.

End Pipeline.

(** X23.  The ledger file of the single-document pipeline is named by
    the second alone: when two failed results, of whatever tasks, are
    handled within the same second, the second file takes the place of
    the first, and the file system ends as if the first failure had
    never been logged. *)
Theorem sync_ledger_of_same_second_is_overwritten
    json_loads now_compact now_iso1 now_iso2
    validated_result1 validated_result2 file_info1 file_info2
    d1 d2 info1 info2 fs out1 fs1 out2 fs2 :
  json_loads validated_result1 = Some (JObj d1) ->
  json_loads file_info1 = Some info1 ->
  json_loads validated_result2 = Some (JObj d2) ->
  json_loads file_info2 = Some info2 ->
  dict_get d1 "status" = Some (JStr "failed") ->
  dict_get d2 "status" = Some (JStr "failed") ->
  SyncFailureHandling.execute json_loads now_compact now_iso1
    validated_result1 file_info1 fs = (out1, fs1) ->
  SyncFailureHandling.execute json_loads now_compact now_iso2
    validated_result2 file_info2 fs1 = (out2, fs2) ->
  out1 = Ok {| SyncFailureHandling.failure_status := "failure_logged" |} /\
  out2 = Ok {| SyncFailureHandling.failure_status := "failure_logged" |} /\
  fs2 = (SyncFailureHandling.execute json_loads now_compact now_iso2
           validated_result2 file_info2 fs).2.
Proof.
  intros Hresult1 Hinfo1 Hresult2 Hinfo2 Hstatus1 Hstatus2.
  rewrite (sync_route_object _ _ _ _ _ _ _ _ Hresult1 Hinfo1).
  rewrite !(sync_route_object _ _ _ _ _ _ _ _ Hresult2 Hinfo2).
  rewrite Hstatus1, Hstatus2. cbn [default from_option id].
  change (SyncValidation.equals_str (JStr "failed") "failed") with true.
  cbv iota. intros [= <- <-] [= <- <-].
  split; [reflexivity|]. split; [reflexivity|].
  cbn [snd FailureHandling.dirs FailureHandling.files]. f_equal.
  - rewrite (assoc_L (∪)). now rewrite union_idemp_L.
  - apply insert_insert_eq.
Qed.

Section Process.

Variable json_loads : string -> option JSON.
Variable json_dumps : JSON -> string.
Variable uuid4 : string.
Variable exn_str : exn -> string.
Variable open_read : string -> result string.
Variable pdfplumber_text : string -> option (result string).
Variable pypdf2_text : string -> result string.
Variable docx_text : string -> option (result string).
Variable generate_content : JSON -> result SyncProcessing.Response.
Variable validation_timestamp : string.
Variable now_compact : string.
Variable now_iso : string.

Let process :=
  SyncProcessing.execute json_loads json_dumps uuid4
    open_read pdfplumber_text pypdf2_text docx_text generate_content.
Let validate := SyncValidation.execute json_loads json_dumps validation_timestamp.
Let route := SyncFailureHandling.execute json_loads now_compact now_iso.

(** The two pipelines read a file in the same way. *)
Lemma sync_read_is_batch_read path :
  SyncProcessing._read_file_content open_read pdfplumber_text pypdf2_text
    docx_text path =
  FileParsing._read_file_content open_read pdfplumber_text pypdf2_text
    docx_text path.
Proof. reflexivity. Qed.

(** X24.  A file that cannot be read aborts the single-document node
    with the exception of the reader, before any request is sent, while
    the batch node turns the same exception into an entry with the
    marker text and goes on. *)
Theorem unreadable_file_aborts_single_document_path
    file_path chunk path e :
  json_loads file_path = Some path ->
  json_loads chunk = Some (JArr [path]) ->
  FileParsing._read_file_content open_read pdfplumber_text pypdf2_text
    docx_text path = Raise e ->
  forall prompt,
    process file_path prompt = (Raise e, []) /\
    FileParsing.execute json_loads json_dumps uuid4 exn_str
      open_read pdfplumber_text pypdf2_text docx_text chunk =
      Ok {| FileParsing.parsed_files := json_dumps (JArr
              [ JObj [ ("file_path", path);
                       ("content",
                        JStr ("[ERROR: Failed to read file - "
                              +:+ exn_str e +:+ "]"));
                       ("error", JStr (exn_str e)) ] ]);
            FileParsing.task_id := uuid4 |}.
Proof.
  intros Hpath Hchunk Hread prompt. split.
  - unfold process, SyncProcessing.execute, Py.loads. rewrite Hpath.
    cbn [mbind result_bind]. rewrite sync_read_is_batch_read, Hread.
    reflexivity.
  - unfold FileParsing.execute, Py.loads. rewrite Hchunk.
    cbn [mbind result_bind py_len iterate map].
    unfold FileParsing.parse_file. now rewrite Hread.
Qed.

(** X25.  When the service answers a request without a candidate, the
    node returns file information with the status failed, the validator
    makes a failed result of it, and the failure handler logs the file
    with the error No response received from Gemini. *)
Theorem no_candidate_is_logged_as_failure
    file_path prompt path content response fs :
  json_loads file_path = Some path ->
  SyncProcessing._read_file_content open_read pdfplumber_text pypdf2_text
    docx_text path = Ok content ->
  generate_content (SyncProcessing.contents prompt content) = Ok response ->
  SyncProcessing.candidates response = [] ->
  exists out info,
    process file_path prompt =
      (Ok out, [SyncProcessing.contents prompt content]) /\
    SyncProcessing.task_id out = uuid4 /\
    SyncProcessing.file_info out = json_dumps info /\
    forall file_info,
      json_loads file_info = Some info ->
      exists validated record,
        validate file_info = Ok validated /\
        SyncValidation.validated_result validated = json_dumps record /\
        forall validated_result,
          json_loads validated_result = Some record ->
          route validated_result file_info fs =
            (Ok {| SyncFailureHandling.failure_status := "failure_logged" |},
             {| FailureHandling.dirs :=
                  {[ "failures" ]} ∪ FailureHandling.dirs fs;
                FailureHandling.files :=
                  <[ "failures/failed_files_" +:+ now_compact +:+ ".csv" :=
                     [ [JStr "file_path"; JStr "task_id"; JStr "error";
                        JStr "timestamp"];
                       [path; JStr uuid4;
                        JStr "No response received from Gemini";
                        JStr now_iso] ] ]>
                    (FailureHandling.files fs) |}).
Proof.
  intros Hpath Hread Hresponse Hnone.
  do 2 eexists. split.
  { unfold process, SyncProcessing.execute, Py.loads. rewrite Hpath.
    cbn [mbind result_bind]. rewrite Hread. cbn [mbind result_bind].
    cbv zeta. rewrite Hresponse, Hnone. reflexivity. }
  split; [reflexivity|]. split; [reflexivity|].
  intros file_info Hinfo. do 2 eexists. split.
  { unfold validate, SyncValidation.execute, Py.loads. rewrite Hinfo.
    reflexivity. }
  split; [reflexivity|]. intros validated_result Hresult.
  unfold route, SyncFailureHandling.execute, Py.loads.
  rewrite Hresult, Hinfo. reflexivity.
Qed.

(** X26.  When the service answers with a candidate whose first part is
    text, the node returns file information with the status completed,
    the validator returns a completed result whose extracted data are
    the parsed text, or the text under the title Document when it is
    not JSON, and the failure handler writes nothing. *)
Theorem candidate_text_is_validated_and_not_logged
    file_path prompt path content response candidate others text parts fs :
  json_loads file_path = Some path ->
  SyncProcessing._read_file_content open_read pdfplumber_text pypdf2_text
    docx_text path = Ok content ->
  generate_content (SyncProcessing.contents prompt content) = Ok response ->
  SyncProcessing.candidates response = candidate :: others ->
  Polling.parts_text candidate = JStr text :: parts ->
  exists out info,
    process file_path prompt =
      (Ok out, [SyncProcessing.contents prompt content]) /\
    SyncProcessing.file_info out = json_dumps info /\
    forall file_info,
      json_loads file_info = Some info ->
      exists validated record,
        validate file_info = Ok validated /\
        SyncValidation.validated_result validated = json_dumps record /\
        get record "status" JNull = Ok (JStr "completed") /\
        get record "extracted_data" JNull =
          Ok (match json_loads text with
              | Some v => v
              | None =>
                  JObj [ ("title", JStr "Document");
                         ("content", JStr text);
                         ("metadata", JObj
                            [ ("file_path", path);
                              ("task_id", JStr uuid4);
                              ("response_format", JStr "plain_text") ]) ]
              end) /\
        forall validated_result,
          json_loads validated_result = Some record ->
          route validated_result file_info fs =
            (Ok {| SyncFailureHandling.failure_status := "no_failure" |}, fs).
Proof.
  intros Hpath Hread Hresponse Hcandidates Hparts.
  do 2 eexists. split.
  { unfold process, SyncProcessing.execute, Py.loads. rewrite Hpath.
    cbn [mbind result_bind]. rewrite Hread. cbn [mbind result_bind].
    cbv zeta. rewrite Hresponse, Hcandidates, Hparts. reflexivity. }
  split; [reflexivity|].
  intros file_info Hinfo.
  destruct (json_loads text) as [v|] eqn:Htext.
  - do 2 eexists. split.
    { unfold validate, SyncValidation.execute, Py.loads. rewrite Hinfo.
      cbn. rewrite Htext. reflexivity. }
    split; [reflexivity|]. split; [reflexivity|]. split; [reflexivity|].
    intros validated_result Hresult.
    unfold route, SyncFailureHandling.execute, Py.loads.
    rewrite Hresult, Hinfo. reflexivity.
  - do 2 eexists. split.
    { unfold validate, SyncValidation.execute, Py.loads. rewrite Hinfo.
      cbn. rewrite Htext. reflexivity. }
    split; [reflexivity|]. split; [reflexivity|]. split; [reflexivity|].
    intros validated_result Hresult.
    unfold route, SyncFailureHandling.execute, Py.loads.
    rewrite Hresult, Hinfo. reflexivity.
Qed.

End Process.

Section Upsert.

Variable json_loads : string -> option JSON.
Variable json_dumps : JSON -> string.
Variable validation_timestamp : string.
Variable update_one : JSON -> JSON -> option exn.
Variable updated_at : JSON.
Variable created_at : JSON.

Let validate := SyncValidation.execute json_loads json_dumps validation_timestamp.
Let write :=
  SyncDatabaseWrite.execute json_loads update_one updated_at created_at.

(** X27.  The result the single-document validator returns, completed
    or failed, is upserted under the task id of the file information:
    the fields that are set carry the status of the result and no
    creation time, which is set on insert only.  The writer has no
    failed outcome: it returns success after closing the client, or the
    exception of the update is the exception of the node and the client
    is not closed. *)
Theorem sync_result_is_upserted_by_task_id file_info d :
  json_loads file_info = Some (JObj d) ->
  (SyncValidation.equals_str
     (default (JStr "unknown") (dict_get d "status")) "completed" = true ->
   exists text,
     default (JStr EmptyString) (dict_get d "response_content") = JStr text) ->
  exists out record,
    validate file_info = Ok out /\
    SyncValidation.validated_result out = json_dumps record /\
    forall validated_result,
      json_loads validated_result = Some record ->
      exists set,
        let filter :=
          JObj [("task_id",
                 default (JStr EmptyString) (dict_get d "task_id"))] in
        let update :=
          JObj [ ("$set", JObj set);
                 ("$setOnInsert", JObj [("created_at", created_at)]) ] in
        dict_get set "created_at" = None /\
        dict_get set "status" =
          Some (JStr (if SyncValidation.equals_str
                           (default (JStr "unknown") (dict_get d "status"))
                           "completed"
                      then "completed" else "failed")) /\
        (update_one filter update = None ->
         write validated_result file_info =
           (Ok {| SyncDatabaseWrite.write_status := "success" |},
            [ SyncDatabaseWrite.Connect;
              SyncDatabaseWrite.UpdateOne filter update true;
              SyncDatabaseWrite.Close ])) /\
        (forall e,
           update_one filter update = Some e ->
           write validated_result file_info =
             (Raise e,
              [ SyncDatabaseWrite.Connect;
                SyncDatabaseWrite.UpdateOne filter update true ])).
Proof.
  intros Hinfo Htext. unfold validate, SyncValidation.execute, Py.loads.
  rewrite Hinfo. cbn [mbind result_bind get].
  destruct (SyncValidation.equals_str
              (default (JStr "unknown") (dict_get d "status")) "completed")
    eqn:Hcompleted; cbn [negb mbind result_bind].
  - destruct (Htext eq_refl) as [text ->].
    destruct (json_loads text) as [v|]; cbn [mbind result_bind];
      do 2 eexists;
      (split; [reflexivity|]); (split; [reflexivity|]);
      intros validated_result Hresult; eexists; cbv zeta;
      (split; [|split; [|split]]);
      [ | | intros Hok | intros e He | | | intros Hok | intros e He ];
      try (unfold write, SyncDatabaseWrite.execute, Py.loads;
           rewrite Hresult, Hinfo; cbn [mbind result_bind get];
           cbn [dict_get String.eqb Ascii.eqb Bool.eqb default from_option id];
           first [rewrite Hok | rewrite He]; reflexivity);
      reflexivity.
  - do 2 eexists. split; [reflexivity|]. split; [reflexivity|].
    intros validated_result Hresult. eexists. cbv zeta.
    split; [|split; [|split]]; [ | | intros Hok | intros e He ];
      try (unfold write, SyncDatabaseWrite.execute, Py.loads;
           rewrite Hresult, Hinfo; cbn [mbind result_bind get];
           cbn [dict_get String.eqb Ascii.eqb Bool.eqb default from_option id];
           first [rewrite Hok | rewrite He]; reflexivity);
      reflexivity.
Qed.

End Upsert.

Lemma sync_failure_is_logged_iff_not_completed_witness :
  exists out record,
    SyncValidation.execute Examples.example_sync_loads Examples.example_dumps
      Examples.example_timestamp
      (Examples.example_dumps Examples.example_failed_file_info) = Ok out /\
    SyncValidation.file_info out =
      Examples.example_dumps Examples.example_failed_file_info /\
    SyncValidation.validated_result out = Examples.example_dumps record.
Proof.
  destruct (sync_failure_is_logged_iff_not_completed
              Examples.example_sync_loads Examples.example_dumps
              Examples.example_timestamp "20250101_000000"
              Examples.example_timestamp
              (Examples.example_dumps Examples.example_failed_file_info)
              [ ("task_id", JStr "task-1");
                ("file_path", JStr "a.txt");
                ("prompt", JStr "Extract the title and the content.");
                ("status", JStr "failed");
                ("error", JStr "No response received from Gemini") ]
              Examples.empty_fs eq_refl ltac:(discriminate))
    as (out & record & Hout & Hinfo & Hrecord & _).
  exists out, record. split; [exact Hout|]. split; [exact Hinfo|exact Hrecord].
Defined.

Lemma sync_ledger_of_same_second_is_overwritten_witness :
  exists out1 fs1 out2 fs2,
    SyncFailureHandling.execute Examples.example_sync_loads "20250101_000000"
      "2025-01-01T00:00:00.100"
      (Examples.example_dumps (Examples.example_failed_result "task-1" "a.txt"))
      "{}" Examples.empty_fs = (out1, fs1) /\
    SyncFailureHandling.execute Examples.example_sync_loads "20250101_000000"
      "2025-01-01T00:00:00.900"
      (Examples.example_dumps (Examples.example_failed_result "task-2" "d.txt"))
      "{}" fs1 = (out2, fs2) /\
    fs2 = (SyncFailureHandling.execute Examples.example_sync_loads
             "20250101_000000" "2025-01-01T00:00:00.900"
             (Examples.example_dumps
                (Examples.example_failed_result "task-2" "d.txt"))
             "{}" Examples.empty_fs).2.
Proof.
  do 4 eexists. split; [reflexivity|]. split; [reflexivity|].
  refine (proj2 (proj2 (sync_ledger_of_same_second_is_overwritten
            Examples.example_sync_loads "20250101_000000"
            "2025-01-01T00:00:00.100" "2025-01-01T00:00:00.900"
            (Examples.example_dumps
               (Examples.example_failed_result "task-1" "a.txt"))
            (Examples.example_dumps
               (Examples.example_failed_result "task-2" "d.txt"))
            "{}" "{}"
            [ ("task_id", JStr "task-1");
              ("file_path", JStr "a.txt");
              ("status", JStr "failed");
              ("error", JStr "No response received from Gemini");
              ("validation_timestamp", JStr Examples.example_timestamp) ]
            [ ("task_id", JStr "task-2");
              ("file_path", JStr "d.txt");
              ("status", JStr "failed");
              ("error", JStr "No response received from Gemini");
              ("validation_timestamp", JStr Examples.example_timestamp) ]
            (JObj []) (JObj []) Examples.empty_fs _ _ _ _
            eq_refl eq_refl eq_refl eq_refl eq_refl eq_refl _ _)));
    reflexivity.
Defined.

Lemma unreadable_file_aborts_single_document_path_witness :
  SyncProcessing.execute Examples.example_sync_loads Examples.example_dumps
    "task-1" Examples.example_open_read (fun _ => None)
    (fun _ => Raise (External "PyPDF2 is not installed")) (fun _ => None)
    (fun _ => Ok Examples.example_no_candidate)
    (Examples.example_dumps (JStr "b.txt"))
    "Extract the title and the content."
  = (Raise (External "No such file: b.txt"), []).
Proof.
  apply (unreadable_file_aborts_single_document_path
           Examples.example_sync_loads Examples.example_dumps "task-1"
           Examples.example_exn_str Examples.example_open_read
           (fun _ => None)
           (fun _ => Raise (External "PyPDF2 is not installed"))
           (fun _ => None) (fun _ => Ok Examples.example_no_candidate)
           (Examples.example_dumps (JStr "b.txt"))
           (Examples.example_dumps (JArr [JStr "b.txt"]))
           (JStr "b.txt") (External "No such file: b.txt")
           eq_refl eq_refl eq_refl).
Defined.

Lemma no_candidate_is_logged_as_failure_witness :
  exists out info,
    SyncProcessing.execute Examples.example_sync_loads Examples.example_dumps
      "task-1" Examples.example_open_read (fun _ => None)
      (fun _ => Raise (External "PyPDF2 is not installed")) (fun _ => None)
      (fun _ => Ok Examples.example_no_candidate)
      (Examples.example_dumps (JStr "a.txt"))
      "Extract the title and the content."
    = (Ok out,
       [ SyncProcessing.contents "Extract the title and the content."
           "text of a.txt" ]) /\
    SyncProcessing.task_id out = "task-1" /\
    SyncProcessing.file_info out = Examples.example_dumps info.
Proof.
  destruct (no_candidate_is_logged_as_failure
              Examples.example_sync_loads Examples.example_dumps "task-1"
              Examples.example_open_read (fun _ => None)
              (fun _ => Raise (External "PyPDF2 is not installed"))
              (fun _ => None) (fun _ => Ok Examples.example_no_candidate)
              Examples.example_timestamp "20250101_000000"
              Examples.example_timestamp
              (Examples.example_dumps (JStr "a.txt"))
              "Extract the title and the content."
              (JStr "a.txt") "text of a.txt" Examples.example_no_candidate
              Examples.empty_fs eq_refl eq_refl eq_refl eq_refl)
    as (out & info & Hout & Htask & Hinfo & _).
  exists out, info. split; [exact Hout|]. split; [exact Htask|exact Hinfo].
Defined.

Lemma candidate_text_is_validated_and_not_logged_witness :
  exists out info,
    SyncProcessing.execute Examples.example_sync_loads Examples.example_dumps
      "task-1" Examples.example_open_read (fun _ => None)
      (fun _ => Raise (External "PyPDF2 is not installed")) (fun _ => None)
      (fun _ => Ok (Examples.example_candidate "A report on revenue."))
      (Examples.example_dumps (JStr "a.txt"))
      "Extract the title and the content."
    = (Ok out,
       [ SyncProcessing.contents "Extract the title and the content."
           "text of a.txt" ]) /\
    SyncProcessing.file_info out = Examples.example_dumps info.
Proof.
  destruct (candidate_text_is_validated_and_not_logged
              Examples.example_sync_loads Examples.example_dumps "task-1"
              Examples.example_open_read (fun _ => None)
              (fun _ => Raise (External "PyPDF2 is not installed"))
              (fun _ => None)
              (fun _ => Ok (Examples.example_candidate "A report on revenue."))
              Examples.example_timestamp "20250101_000000"
              Examples.example_timestamp
              (Examples.example_dumps (JStr "a.txt"))
              "Extract the title and the content."
              (JStr "a.txt") "text of a.txt"
              (Examples.example_candidate "A report on revenue.")
              {| Polling.parts_text := [JStr "A report on revenue."] |}
              [] "A report on revenue." [] Examples.empty_fs
              eq_refl eq_refl eq_refl eq_refl eq_refl)
    as (out & info & Hout & Hinfo & _).
  exists out, info. split; [exact Hout|exact Hinfo].
Defined.

Lemma sync_result_is_upserted_by_task_id_witness :
  exists out record,
    SyncValidation.execute Examples.example_sync_loads Examples.example_dumps
      Examples.example_timestamp
      (Examples.example_dumps Examples.example_failed_file_info) = Ok out /\
    SyncValidation.validated_result out = Examples.example_dumps record.
Proof.
  destruct (sync_result_is_upserted_by_task_id
              Examples.example_sync_loads Examples.example_dumps
              Examples.example_timestamp (fun _ _ => None)
              (JStr "2025-01-01 00:00:01") (JStr "2025-01-01 00:00:02")
              (Examples.example_dumps Examples.example_failed_file_info)
              [ ("task_id", JStr "task-1");
                ("file_path", JStr "a.txt");
                ("prompt", JStr "Extract the title and the content.");
                ("status", JStr "failed");
                ("error", JStr "No response received from Gemini") ]
              eq_refl ltac:(discriminate))
    as (out & record & Hout & Hrecord & _).
  exists out, record. split; [exact Hout|exact Hrecord].
Defined.

End SyncExtra.
